(** * Thruster Kill Board firmware: kill sequences, hall sensors, CAN frames

    A shallow embedding of
    - Firmware/Thruster_Kill_Board/Thruster_Spin_Test/Thruster_Kill_Board.c
    - Firmware/Thruster_Kill_Board/CAN_TX_Test_Bench/MIL_CAN.c

    The firmware is straight-line code over the TivaWare driver library.
    Every C function that only talks to the hardware is embedded as the
    list of driver calls it performs, in program order (its trace); the
    functions that read a value (hall checks, message classification) are
    embedded as functions of what they read.  A small board model gives the
    traces a meaning in terms of power rails, PWM output and GPIO interrupt
    configuration. *)

From Stdlib Require Import String Ascii ZArith QArith Qround Bool Lia Lqa List
  Permutation.
Import ListNotations.
Local Open Scope Z_scope.

(** ** The driver vocabulary (TivaWare driverlib) *)

Module Tiva.

(** Pad drive strength; the firmware only ever asks for 2 mA. *)
Inductive pad_strength : Type :=
| GPIO_STRENGTH_2MA.

(** Pad type; the firmware chooses between weak pull-up and weak pull-down. *)
Inductive pad_type : Type :=
| GPIO_PIN_TYPE_STD_WPU
| GPIO_PIN_TYPE_STD_WPD.

(** Interrupt trigger of a GPIO pin. *)
Inductive int_edge : Type :=
| GPIO_FALLING_EDGE
| GPIO_RISING_EDGE.

(** Kind of a CAN message object. *)
Inductive tMsgObjType : Type :=
| MSG_OBJ_TYPE_TX
| MSG_OBJ_TYPE_RX.

(** [tCANMsgObject].  [ui32MsgIDMask] is [None] while the field has not
    been written.  [pui8MsgData] is the content of the buffer the pointer
    designates. *)
Record tCANMsgObject : Type := {
  ui32MsgID : Z;
  ui32MsgIDMask : option Z;
  ui32Flags : Z;
  ui32MsgLen : Z;
  pui8MsgData : list Z
}.

(** Modelled from the spec: the power and delay macros of
    Thruster_Kill_Board.h, which is not among the sources.  Each is one
    opaque board action named after the macro. *)
Inductive tkb_macro : Type :=
| POWER_MAIN
| KILL_MAIN
| POWER_THRUSTERS
| KILL_THRUSTERS
| TKB_PWM_OUT_EN
| SEC_1_DELAY.

(** One call into the hardware. *)
Inductive action : Type :=
| GPIOPinTypeGPIOInput (port pins : Z)
| GPIOPadConfigSet (port pins : Z) (strength : pad_strength) (pin_type : pad_type)
| GPIOIntTypeSet (port pins : Z) (int_type : int_edge)
| GPIOIntEnable (port pins : Z)
| PWMPulseWidthSet (base pwm_out width : Z)
| PWMOutputState (base pwm_out_bits : Z) (enable : bool)
| CANMessageSet (base obj_id : Z) (msg : tCANMsgObject) (msg_type : tMsgObjType)
| Macro (m : tkb_macro).

Definition trace : Type := list action.

(** [for (uint8_t i = 0; i < n; i++) { body }] for a body that does not
    touch [i]. *)
Fixpoint for_count (n : nat) (body : trace) : trace :=
  match n with
  | O => []
  | S k => body ++ for_count k body
  end.

End Tiva.

Export Tiva.

Declare Scope trace_scope.
Delimit Scope trace_scope with trace.
Notation "c1 ;; c2" := (c1 ++ c2)
(at level 61, right associativity) : trace_scope.

(** ** The board *)

Module Board.

(** What the kill sequences act upon: the two power rails, the PWM output
    enable, and the edge interrupts configured on GPIO pins. *)
Record board : Type := {
  main_power : bool;
  thruster_power : bool;
  pwm_output : bool;
  gpio_int : list (Z * Z * int_edge)
}.

(** Modelled from the spec: the effect of the Thruster_Kill_Board.h macros
    (POWER_MAIN / KILL_MAIN switch main power, POWER_THRUSTERS /
    KILL_THRUSTERS switch thruster power, TKB_PWM_OUT_EN enables the PWM
    outputs, SEC_1_DELAY only waits). *)
Definition step_macro (b : board) (m : tkb_macro) : board :=
  match m with
  | POWER_MAIN =>
      {| main_power := true; thruster_power := thruster_power b;
         pwm_output := pwm_output b; gpio_int := gpio_int b |}
  | KILL_MAIN =>
      {| main_power := false; thruster_power := thruster_power b;
         pwm_output := pwm_output b; gpio_int := gpio_int b |}
  | POWER_THRUSTERS =>
      {| main_power := main_power b; thruster_power := true;
         pwm_output := pwm_output b; gpio_int := gpio_int b |}
  | KILL_THRUSTERS =>
      {| main_power := main_power b; thruster_power := false;
         pwm_output := pwm_output b; gpio_int := gpio_int b |}
  | TKB_PWM_OUT_EN =>
      {| main_power := main_power b; thruster_power := thruster_power b;
         pwm_output := true; gpio_int := gpio_int b |}
  | SEC_1_DELAY => b
  end.

Definition step (b : board) (a : action) : board :=
  match a with
  | Macro m => step_macro b m
  | PWMOutputState _ _ en =>
      {| main_power := main_power b; thruster_power := thruster_power b;
         pwm_output := en; gpio_int := gpio_int b |}
  | GPIOIntTypeSet port pins e =>
      {| main_power := main_power b; thruster_power := thruster_power b;
         pwm_output := pwm_output b;
         gpio_int := (port, pins, e) :: gpio_int b |}
  | GPIOPinTypeGPIOInput _ _
  | GPIOPadConfigSet _ _ _ _
  | GPIOIntEnable _ _
  | PWMPulseWidthSet _ _ _
  | CANMessageSet _ _ _ _ => b
  end.

Definition run (t : trace) (b : board) : board := fold_left step t b.

Inductive KillState : Type :=
| Running
| SoftKilled
| HardKilled.

(** Modelled from the spec: the kill state is a variable of the main loop,
    which is not among the sources.  Read off the board: hard killed when
    main power is removed; running when main power, thruster power and
    PWM output are all on; soft killed otherwise. *)
Definition kill_state_of (b : board) : KillState :=
  if negb (main_power b) then HardKilled
  else if thruster_power b && pwm_output b then Running
  else SoftKilled.

(** Classification of actions used to state what a trace does and does
    not contain. *)
Definition is_pwm_output_switch (a : action) : bool :=
  match a with
  | PWMOutputState _ _ _ | Macro TKB_PWM_OUT_EN => true
  | _ => false
  end.

Definition is_gpio_int_config (a : action) : bool :=
  match a with
  | GPIOIntTypeSet _ _ _ | GPIOIntEnable _ _ => true
  | _ => false
  end.

Definition is_can_tx (a : action) : bool :=
  match a with
  | CANMessageSet _ _ _ MSG_OBJ_TYPE_TX => true
  | _ => false
  end.

Definition can_obj_id (a : action) : option Z :=
  match a with
  | CANMessageSet _ obj _ _ => Some obj
  | _ => None
  end.

End Board.

Export Board.

(** ** MIL_CAN.c *)

Module MIL_CAN.

(** [MIL_CANSimpleTX]: fills a temporary message object and hands it to
    message object 0 of the controller.  [MsgLen] is a [uint8_t] and is
    stored in the 32-bit length field as it is. *)
Definition MIL_CANSimpleTX (canid : Z) (pMsg : list Z) (MsgLen : Z) (base : Z)
  : trace :=
  let SimpleTXObj :=
    {| ui32MsgID := canid;
       ui32MsgIDMask := None;
       ui32Flags := 0;
       ui32MsgLen := MsgLen;
       pui8MsgData := pMsg |} in
  [CANMessageSet base 0 SimpleTXObj MSG_OBJ_TYPE_TX].

End MIL_CAN.

Export MIL_CAN.

(** ** Thruster_Kill_Board.c *)

Module TKB.

(** The constants of Thruster_Kill_Board.h and MIL_BR_ESC.h the two C files
    use.  The headers are not among the sources, so the firmware is
    embedded over any choice of them. *)
Class config : Type := {
  (* peripherals *)
  GPIO_PORTB_BASE : Z;
  TKB_PWM_BASE : Z;
  TKB_CAN_BASE : Z;
  TKB_CANID : Z;
  (* PWM generators, one per thruster pair *)
  TKB_FH_PWM_GEN : Z;
  TKB_FV_PWM_GEN : Z;
  TKB_BH_PWM_GEN : Z;
  TKB_BV_PWM_GEN : Z;
  (* PWM outputs, one per thruster *)
  TKB_PWM_FHL_PIN : Z;
  TKB_PWM_FHR_PIN : Z;
  TKB_PWM_FVL_PIN : Z;
  TKB_PWM_FVR_PIN : Z;
  TKB_PWM_BHL_PIN : Z;
  TKB_PWM_BHR_PIN : Z;
  TKB_PWM_BVL_PIN : Z;
  TKB_PWM_BVR_PIN : Z;
  (* the stop pulse width of a generator, in timer ticks *)
  PWM_STOP_PER : Z -> Z -> Z;
  (* hall sensors *)
  HALL_SOFTKILL_PIN : Z;
  HALL_GO_PIN : Z;
  HALL_ON_OFF_PIN : Z;
  HALL_ACT_LO : Z;
  HALL_ACT_HI : Z;
  HALL_HI : Z;
  HALL_LO : Z;
  (* inbound messages *)
  MSG_TYPE_IDX : nat;
  KILL_START_BYTE : Z;
  THRUST_START_BYTE : Z;
  (* Modelled from the spec: the full-reverse and full-forward pulse widths
     of a generator (section 4.2); MIL_BR_ESC.h is not among the sources. *)
  PWM_FULL_REV_PER : Z -> Z -> Z;
  PWM_FULL_FWD_PER : Z -> Z -> Z
}.

(** *** CAN messages *)

(** [static const char a[n] = "lit";]: the characters of the literal, then
    zero bytes up to the declared size. *)
Definition char_array (n : nat) (lit : string) : list Z :=
  firstn n (map (fun c => Z.of_N (N_of_ascii c)) (list_ascii_of_string lit)
            ++ repeat 0 n).

Definition C_KILL_LEN : Z := 5.
Definition C_GO_LEN : Z := 3.

(* TX messages *)
Definition Hard_Killed : list Z := char_array (Z.to_nat C_KILL_LEN) "KRHA".
Definition Soft_Killed : list Z := char_array (Z.to_nat C_KILL_LEN) "KRSA".
Definition Hard_UnKilled : list Z := char_array (Z.to_nat C_KILL_LEN) "KRHU".
Definition Soft_UnKilled : list Z := char_array (Z.to_nat C_KILL_LEN) "KRSU".
Definition Go_Asserted : list Z := char_array (Z.to_nat C_GO_LEN) "GA".
Definition Go_UnAsserted : list Z := char_array (Z.to_nat C_GO_LEN) "GU".

(* RX messages *)
Definition Hard_Killed_CMD : list Z := char_array (Z.to_nat C_KILL_LEN) "KCHA".
Definition Soft_Killed_CMD : list Z := char_array (Z.to_nat C_KILL_LEN) "KCSA".
Definition Hard_UnKilled_CMD : list Z := char_array (Z.to_nat C_KILL_LEN) "KCHU".
Definition Soft_UnKilled_CMD : list Z := char_array (Z.to_nat C_KILL_LEN) "KCSU".

(** The status events of the protocol, and for each the constant and the
    length constant the firmware declares for it. *)
Inductive status_event : Type :=
| EvHardKilled
| EvSoftKilled
| EvHardUnkilled
| EvSoftUnkilled
| EvGoAsserted
| EvGoUnasserted.

Definition status_payload (e : status_event) : list Z :=
  match e with
  | EvHardKilled => Hard_Killed
  | EvSoftKilled => Soft_Killed
  | EvHardUnkilled => Hard_UnKilled
  | EvSoftUnkilled => Soft_UnKilled
  | EvGoAsserted => Go_Asserted
  | EvGoUnasserted => Go_UnAsserted
  end.

Definition status_length (e : status_event) : Z :=
  match e with
  | EvHardKilled | EvSoftKilled | EvHardUnkilled | EvSoftUnkilled => C_KILL_LEN
  | EvGoAsserted | EvGoUnasserted => C_GO_LEN
  end.

(** [tkb_thrust_data_t], as far as [TKB_PWM_SetSpeed] reads it.  The speed
    is a C float; it is embedded as the rational it denotes. *)
Record tkb_thrust_data_t : Type := {
  pwm_out : Z;
  pwm_gen : Z;
  speed_float : Q
}.

(** Conversion of a (real) pulse width to the [uint32_t] argument of
    [PWMPulseWidthSet]: the fractional part is discarded. *)
Definition trunc_width (w : Q) : Z :=
  if Qle_bool 0 w then Qfloor w else Qceiling w.

Section Firmware.

Context {cfg : config}.
Local Open Scope trace_scope.

(** *** Kill sequences *)

Definition TKB_StopAllThrust : trace :=
  [PWMPulseWidthSet TKB_PWM_BASE TKB_PWM_FHL_PIN
     (PWM_STOP_PER TKB_PWM_BASE TKB_FH_PWM_GEN)] ;;
  [PWMPulseWidthSet TKB_PWM_BASE TKB_PWM_FHR_PIN
     (PWM_STOP_PER TKB_PWM_BASE TKB_FH_PWM_GEN)] ;;
  [PWMPulseWidthSet TKB_PWM_BASE TKB_PWM_FVL_PIN
     (PWM_STOP_PER TKB_PWM_BASE TKB_FV_PWM_GEN)] ;;
  [PWMPulseWidthSet TKB_PWM_BASE TKB_PWM_FVR_PIN
     (PWM_STOP_PER TKB_PWM_BASE TKB_FV_PWM_GEN)] ;;
  [PWMPulseWidthSet TKB_PWM_BASE TKB_PWM_BHL_PIN
     (PWM_STOP_PER TKB_PWM_BASE TKB_BH_PWM_GEN)] ;;
  [PWMPulseWidthSet TKB_PWM_BASE TKB_PWM_BHR_PIN
     (PWM_STOP_PER TKB_PWM_BASE TKB_BH_PWM_GEN)] ;;
  [PWMPulseWidthSet TKB_PWM_BASE TKB_PWM_BVL_PIN
     (PWM_STOP_PER TKB_PWM_BASE TKB_BV_PWM_GEN)] ;;
  [PWMPulseWidthSet TKB_PWM_BASE TKB_PWM_BVR_PIN
     (PWM_STOP_PER TKB_PWM_BASE TKB_BV_PWM_GEN)].

Definition TKB_IdleThrusters : trace :=
  TKB_StopAllThrust.

Definition TKB_SoftKill : trace :=
  TKB_IdleThrusters ;;
  [Macro KILL_THRUSTERS] ;;
  MIL_CANSimpleTX TKB_CANID Soft_Killed C_KILL_LEN TKB_CAN_BASE.

Definition TKB_HardKill : trace :=
  TKB_SoftKill ;;
  MIL_CANSimpleTX TKB_CANID Hard_Killed C_KILL_LEN TKB_CAN_BASE ;;
  for_count 5 [Macro SEC_1_DELAY] ;;
  [Macro KILL_MAIN].

Definition TKB_Init_ESC : trace :=
  [Macro POWER_THRUSTERS] ;;
  for_count 2 [Macro SEC_1_DELAY] ;;
  [PWMPulseWidthSet TKB_PWM_BASE TKB_PWM_FHL_PIN
     (PWM_STOP_PER TKB_PWM_BASE TKB_FH_PWM_GEN)] ;;
  [PWMPulseWidthSet TKB_PWM_BASE TKB_PWM_FHR_PIN
     (PWM_STOP_PER TKB_PWM_BASE TKB_FH_PWM_GEN)] ;;
  [PWMPulseWidthSet TKB_PWM_BASE TKB_PWM_FVL_PIN
     (PWM_STOP_PER TKB_PWM_BASE TKB_FV_PWM_GEN)] ;;
  [PWMPulseWidthSet TKB_PWM_BASE TKB_PWM_FVR_PIN
     (PWM_STOP_PER TKB_PWM_BASE TKB_FV_PWM_GEN)] ;;
  [PWMPulseWidthSet TKB_PWM_BASE TKB_PWM_BHL_PIN
     (PWM_STOP_PER TKB_PWM_BASE TKB_BH_PWM_GEN)] ;;
  [PWMPulseWidthSet TKB_PWM_BASE TKB_PWM_BHR_PIN
     (PWM_STOP_PER TKB_PWM_BASE TKB_BH_PWM_GEN)] ;;
  [PWMPulseWidthSet TKB_PWM_BASE TKB_PWM_BVL_PIN
     (PWM_STOP_PER TKB_PWM_BASE TKB_BV_PWM_GEN)] ;;
  [PWMPulseWidthSet TKB_PWM_BASE TKB_PWM_BVR_PIN
     (PWM_STOP_PER TKB_PWM_BASE TKB_BV_PWM_GEN)] ;;
  [Macro TKB_PWM_OUT_EN].

Definition TKB_UnKill : trace :=
  [Macro POWER_MAIN] ;;
  [Macro POWER_THRUSTERS] ;;
  TKB_Init_ESC.

(** *** Thrust *)

(** Modelled from the spec: [MIL_BR_linear_per] of MIL_BR_ESC.h, which is not
    among the sources.  Section 4.2: the speed is clamped to [-1, 1], and the
    pulse width is interpolated linearly between the full-reverse, the stop
    and the full-forward width of the generator. *)
Definition clamp_speed (speed : Q) : Q :=
  if Qle_bool speed (-1) then -1
  else if Qle_bool 1 speed then 1
  else speed.

Definition MIL_BR_linear_per (speed : Q) (base gen : Z) : Q :=
  let s := clamp_speed speed in
  let stop := inject_Z (PWM_STOP_PER base gen) in
  if Qle_bool 0 s
  then (stop + s * (inject_Z (PWM_FULL_FWD_PER base gen) - stop))%Q
  else (stop + s * (stop - inject_Z (PWM_FULL_REV_PER base gen)))%Q.

Definition TKB_PWM_SetSpeed (thruster : tkb_thrust_data_t) : trace :=
  [PWMPulseWidthSet TKB_PWM_BASE (pwm_out thruster)
     (trunc_width
        (MIL_BR_linear_per (speed_float thruster) TKB_PWM_BASE
           (pwm_gen thruster)))].

(** *** Hall sensors *)

(** The two locals [pull] and [edge] as the [switch] of [Init_HALL_IO]
    leaves them. *)
Definition Init_HALL_IO_switch (activation_lvl : Z) : pad_type * int_edge :=
  if activation_lvl =? HALL_ACT_LO then
    (GPIO_PIN_TYPE_STD_WPU, GPIO_RISING_EDGE)
  else if activation_lvl =? HALL_ACT_HI then
    (GPIO_PIN_TYPE_STD_WPD, GPIO_FALLING_EDGE)
  else
    (GPIO_PIN_TYPE_STD_WPD, GPIO_FALLING_EDGE).

Definition Init_HALL_IO (activation_lvl : Z) : trace :=
  [GPIOPinTypeGPIOInput GPIO_PORTB_BASE HALL_SOFTKILL_PIN] ;;
  [GPIOPinTypeGPIOInput GPIO_PORTB_BASE HALL_GO_PIN] ;;
  [GPIOPinTypeGPIOInput GPIO_PORTB_BASE HALL_ON_OFF_PIN] ;;
  let '(pull, edge) := Init_HALL_IO_switch activation_lvl in
  [GPIOPadConfigSet GPIO_PORTB_BASE HALL_SOFTKILL_PIN GPIO_STRENGTH_2MA pull] ;;
  [GPIOPadConfigSet GPIO_PORTB_BASE HALL_GO_PIN GPIO_STRENGTH_2MA pull] ;;
  [GPIOPadConfigSet GPIO_PORTB_BASE HALL_ON_OFF_PIN GPIO_STRENGTH_2MA pull].

(** [GPIOPinRead]: the data register of the port, masked by the pins asked
    for.  [gpio] gives the current content of each port's data register. *)
Definition GPIOPinRead (gpio : Z -> Z) (port pins : Z) : Z :=
  Z.land (gpio port) pins.

Definition HALL_CheckGo (gpio : Z -> Z) : Z :=
  if negb (Z.land (GPIOPinRead gpio GPIO_PORTB_BASE HALL_GO_PIN) HALL_GO_PIN =? 0)
  then HALL_HI
  else HALL_LO.

Definition HALL_CheckSoftKill (gpio : Z -> Z) : Z :=
  if negb (Z.land (GPIOPinRead gpio GPIO_PORTB_BASE HALL_SOFTKILL_PIN)
             HALL_SOFTKILL_PIN =? 0)
  then HALL_HI
  else HALL_LO.

Definition HALL_Check_ON_OFF (gpio : Z -> Z) : Z :=
  if negb (Z.land (GPIOPinRead gpio GPIO_PORTB_BASE HALL_ON_OFF_PIN)
             HALL_ON_OFF_PIN =? 0)
  then HALL_HI
  else HALL_LO.

(** *** Inbound messages *)

(** [pMsg] is the content of the buffer the pointer designates; a read
    past its end has no defined result. *)
Definition TKB_Check_KillMsg (pMsg : list Z) : option Z :=
  match nth_error pMsg MSG_TYPE_IDX with
  | Some b => if b =? KILL_START_BYTE then Some 0x01 else Some 0x00
  | None => None
  end.

Definition TKB_Check_ThrustMsg (pMsg : list Z) : option Z :=
  match nth_error pMsg MSG_TYPE_IDX with
  | Some b => if b =? THRUST_START_BYTE then Some 0x01 else Some 0x00
  | None => None
  end.

End Firmware.

(** *** Words of the specification *)

(** Activation polarity of the hall sensors, and what a raw pin level means
    under it: with an active-high sensor the magnet is present when the pin
    reads high, with an active-low sensor when it reads low. *)
Inductive polarity : Type :=
| ActiveHigh
| ActiveLow.

Definition magnet_present (pol : polarity) (pin_high : bool) : bool :=
  match pol with
  | ActiveHigh => pin_high
  | ActiveLow => negb pin_high
  end.

(** Whether any of the pins [pins] of port B reads high. *)
Definition pin_high {cfg : config} (gpio : Z -> Z) (pins : Z) : bool :=
  negb (Z.land (gpio GPIO_PORTB_BASE) pins =? 0).

(** An action that switches the PWM outputs off. *)
Definition is_pwm_output_disable (a : action) : bool :=
  match a with
  | PWMOutputState _ _ false => true
  | _ => false
  end.

(** The hard-kill sequence as the specification's transition table words
    it: stop all thrust, disable PWM output, cut thruster power, transmit
    the soft-killed status, wait, cut main power, transmit the hard-killed
    status. *)
Definition spec_hard_kill_order {cfg : config} (t : trace) : Prop :=
  exists pwm_off : action,
    is_pwm_output_disable pwm_off = true /\
    t = TKB_StopAllThrust
        ++ [pwm_off]
        ++ [Macro KILL_THRUSTERS]
        ++ MIL_CANSimpleTX TKB_CANID Soft_Killed C_KILL_LEN TKB_CAN_BASE
        ++ for_count 5 [Macro SEC_1_DELAY]
        ++ [Macro KILL_MAIN]
        ++ MIL_CANSimpleTX TKB_CANID Hard_Killed C_KILL_LEN TKB_CAN_BASE.

(** *** A concrete board

    Pin and generator numbers follow the mapping in the header comment of
    Thruster_Kill_Board.c (FH on generator 1 with outputs 3 and 2, FV on
    generator 2 with outputs 4 and 5, BH on generator 0 with outputs 0 and 1,
    BV on generator 3 with outputs 7 and 6) with the TivaWare encodings;
    pulse widths are in microseconds of the Blue Robotics protocol.  The
    other values are sample values. *)
Definition sub8 : config := {|
  GPIO_PORTB_BASE := 0x40005000;
  TKB_PWM_BASE := 0x40028000;
  TKB_CAN_BASE := 0x40040000;
  TKB_CANID := 0x12;
  TKB_FH_PWM_GEN := 0x80;
  TKB_FV_PWM_GEN := 0xC0;
  TKB_BH_PWM_GEN := 0x40;
  TKB_BV_PWM_GEN := 0x100;
  TKB_PWM_FHL_PIN := 0x43;
  TKB_PWM_FHR_PIN := 0x42;
  TKB_PWM_FVL_PIN := 0x44;
  TKB_PWM_FVR_PIN := 0x45;
  TKB_PWM_BHL_PIN := 0x40;
  TKB_PWM_BHR_PIN := 0x41;
  TKB_PWM_BVL_PIN := 0x47;
  TKB_PWM_BVR_PIN := 0x46;
  PWM_STOP_PER := fun _ _ => 1500;
  HALL_SOFTKILL_PIN := 0x01;
  HALL_GO_PIN := 0x02;
  HALL_ON_OFF_PIN := 0x04;
  HALL_ACT_LO := 0;
  HALL_ACT_HI := 1;
  HALL_HI := 0xFF;
  HALL_LO := 0x00;
  MSG_TYPE_IDX := 0%nat;
  KILL_START_BYTE := 0x4B;
  THRUST_START_BYTE := 0x54;
  PWM_FULL_REV_PER := fun _ _ => 1100;
  PWM_FULL_FWD_PER := fun _ _ => 1900
|}.

(** A board that is up and running. *)
Definition running_board : board :=
  {| main_power := true; thruster_power := true; pwm_output := true;
     gpio_int := [] |}.

(** A board that has just booted: everything off. *)
Definition booted_board : board :=
  {| main_power := false; thruster_power := false; pwm_output := false;
     gpio_int := [] |}.

End TKB.

Export TKB.

(** ** Peripheral bring-up: MIL_CAN.c and TKB_PWM0_Init *)

Module Bringup.

(** The GPIO ports the two files name. *)
Inductive port_id : Type :=
| GPIO_PORTA
| GPIO_PORTB
| GPIO_PORTC
| GPIO_PORTE
| GPIO_PORTF.

(** The peripherals whose clock the two files enable. *)
Inductive periph : Type :=
| SYSCTL_PERIPH_CAN0
| SYSCTL_PERIPH_CAN1
| SYSCTL_PERIPH_GPIOA
| SYSCTL_PERIPH_GPIOB
| SYSCTL_PERIPH_GPIOE
| SYSCTL_PERIPH_GPIOF
| SYSCTL_PERIPH_PWM0.

Inductive interrupt : Type :=
| INT_CAN0
| INT_CAN1.

(** The signal a pin is switched to. *)
Inductive pin_signal : Type :=
| CAN0RX
| CAN0TX
| CAN1RX
| CAN1TX
| M0PWM (output : Z).

(** A pin-mux constant [GPIO_P<port><pin>_<signal>] names a port, a pin of
    it, and the signal the pin is to carry. *)
Record pin_mux : Type := {
  mux_port : port_id;
  mux_pin : Z;
  mux_signal : pin_signal
}.

Definition GPIO_PB4_CAN0RX : pin_mux :=
  {| mux_port := GPIO_PORTB; mux_pin := 4; mux_signal := CAN0RX |}.
Definition GPIO_PB5_CAN0TX : pin_mux :=
  {| mux_port := GPIO_PORTB; mux_pin := 5; mux_signal := CAN0TX |}.
Definition GPIO_PE4_CAN0RX : pin_mux :=
  {| mux_port := GPIO_PORTE; mux_pin := 4; mux_signal := CAN0RX |}.
Definition GPIO_PE5_CAN0TX : pin_mux :=
  {| mux_port := GPIO_PORTE; mux_pin := 5; mux_signal := CAN0TX |}.
Definition GPIO_PF0_CAN0RX : pin_mux :=
  {| mux_port := GPIO_PORTF; mux_pin := 0; mux_signal := CAN0RX |}.
Definition GPIO_PF3_CAN0TX : pin_mux :=
  {| mux_port := GPIO_PORTF; mux_pin := 3; mux_signal := CAN0TX |}.
Definition GPIO_PA0_CAN1RX : pin_mux :=
  {| mux_port := GPIO_PORTA; mux_pin := 0; mux_signal := CAN1RX |}.
Definition GPIO_PA1_CAN1TX : pin_mux :=
  {| mux_port := GPIO_PORTA; mux_pin := 1; mux_signal := CAN1TX |}.
Definition GPIO_PB6_M0PWM0 : pin_mux :=
  {| mux_port := GPIO_PORTB; mux_pin := 6; mux_signal := M0PWM 0 |}.
Definition GPIO_PB7_M0PWM1 : pin_mux :=
  {| mux_port := GPIO_PORTB; mux_pin := 7; mux_signal := M0PWM 1 |}.
Definition GPIO_PB4_M0PWM2 : pin_mux :=
  {| mux_port := GPIO_PORTB; mux_pin := 4; mux_signal := M0PWM 2 |}.
Definition GPIO_PB5_M0PWM3 : pin_mux :=
  {| mux_port := GPIO_PORTB; mux_pin := 5; mux_signal := M0PWM 3 |}.
Definition GPIO_PE4_M0PWM4 : pin_mux :=
  {| mux_port := GPIO_PORTE; mux_pin := 4; mux_signal := M0PWM 4 |}.
Definition GPIO_PE5_M0PWM5 : pin_mux :=
  {| mux_port := GPIO_PORTE; mux_pin := 5; mux_signal := M0PWM 5 |}.
Definition GPIO_PC4_M0PWM6 : pin_mux :=
  {| mux_port := GPIO_PORTC; mux_pin := 4; mux_signal := M0PWM 6 |}.
Definition GPIO_PC5_M0PWM7 : pin_mux :=
  {| mux_port := GPIO_PORTC; mux_pin := 5; mux_signal := M0PWM 7 |}.

(** Pin masks: pin [n] of a port is bit [n]. *)
Definition GPIO_PIN_0 : Z := 0x01.
Definition GPIO_PIN_1 : Z := 0x02.
Definition GPIO_PIN_3 : Z := 0x08.
Definition GPIO_PIN_4 : Z := 0x10.
Definition GPIO_PIN_5 : Z := 0x20.
Definition GPIO_PIN_6 : Z := 0x40.
Definition GPIO_PIN_7 : Z := 0x80.

(** The two CAN controllers, by their base address in the memory map. *)
Definition CAN0_BASE : Z := 0x40040000.
Definition CAN1_BASE : Z := 0x40041000.

(** Interrupt sources of a CAN controller and modes of a PWM generator; an
    or of flags is embedded as the list of the flags. *)
Inductive can_int_flag : Type :=
| CAN_INT_ERROR
| CAN_INT_STATUS
| CAN_INT_MASTER.

Inductive pwm_gen_mode : Type :=
| PWM_GEN_MODE_UP_DOWN
| PWM_GEN_MODE_NO_SYNC.

Inductive mil_can_port_t : Type :=
| MIL_CAN_PORT_A
| MIL_CAN_PORT_B
| MIL_CAN_PORT_E
| MIL_CAN_PORT_F.

(** One bring-up call into the driver library.  An interrupt handler is
    given by its address. *)
Inductive call : Type :=
| SysCtlPeripheralEnable (p : periph)
| GPIOPinConfigure (m : pin_mux)
| GPIOPinTypeCAN (port : port_id) (pins : Z)
| GPIOPinTypePWM (port : port_id) (pins : Z)
| CANInit (base : Z)
| CANRetrySet (base : Z) (auto_retry : bool)
| CANBitRateSet (base source_clock bit_rate : Z)
| CANEnable (base : Z)
| CANIntRegister (base handler : Z)
| CANIntEnable (base : Z) (flags : list can_int_flag)
| IntEnable (i : interrupt)
| PWMGenConfigure (base gen : Z) (mode : list pwm_gen_mode)
| PWMGenPeriodSet (base gen period : Z)
| PWMGenEnable (base gen : Z).

(** *** MIL_CAN.c *)

(** [SysCtlClockGet ()] is the argument [clock]. *)
Definition MIL_InitCAN (port : mil_can_port_t) (base : Z) (clock : Z)
  : list call :=
  (match port with
   | MIL_CAN_PORT_B =>
       [GPIOPinConfigure GPIO_PB4_CAN0RX;
        GPIOPinConfigure GPIO_PB5_CAN0TX;
        GPIOPinTypeCAN GPIO_PORTB (Z.lor GPIO_PIN_4 GPIO_PIN_5)]
   | MIL_CAN_PORT_E =>
       [GPIOPinConfigure GPIO_PE4_CAN0RX;
        GPIOPinConfigure GPIO_PE5_CAN0TX;
        GPIOPinTypeCAN GPIO_PORTE (Z.lor GPIO_PIN_4 GPIO_PIN_5)]
   | MIL_CAN_PORT_F =>
       [GPIOPinConfigure GPIO_PF0_CAN0RX;
        GPIOPinConfigure GPIO_PF3_CAN0TX;
        GPIOPinTypeCAN GPIO_PORTF (Z.lor GPIO_PIN_0 GPIO_PIN_3)]
   | MIL_CAN_PORT_A => []
   end)
  ++ (if base =? CAN0_BASE then
        [SysCtlPeripheralEnable SYSCTL_PERIPH_CAN0]
      else if base =? CAN1_BASE then
        [SysCtlPeripheralEnable SYSCTL_PERIPH_CAN1;
         GPIOPinConfigure GPIO_PA0_CAN1RX;
         GPIOPinConfigure GPIO_PA1_CAN1TX;
         GPIOPinTypeCAN GPIO_PORTA (Z.lor GPIO_PIN_0 GPIO_PIN_1)]
      else [])
  ++ [CANInit base]
  ++ [CANRetrySet base true]
  ++ [CANBitRateSet base clock 100000]
  ++ [CANEnable base].

Definition MIL_CANIntEnable (func_ptr : Z) (base : Z) : list call :=
  [CANIntRegister base func_ptr]
  ++ [CANIntEnable base [CAN_INT_MASTER; CAN_INT_STATUS]]
  ++ (if base =? CAN0_BASE then [IntEnable INT_CAN0]
      else if base =? CAN1_BASE then [IntEnable INT_CAN1]
      else []).

Definition MIL_CANPortClkEnable (port : mil_can_port_t) : list call :=
  match port with
  | MIL_CAN_PORT_A => [SysCtlPeripheralEnable SYSCTL_PERIPH_GPIOA]
  | MIL_CAN_PORT_B => [SysCtlPeripheralEnable SYSCTL_PERIPH_GPIOB]
  | MIL_CAN_PORT_E => [SysCtlPeripheralEnable SYSCTL_PERIPH_GPIOE]
  | MIL_CAN_PORT_F => [SysCtlPeripheralEnable SYSCTL_PERIPH_GPIOF]
  end.

(** *** Thruster_Kill_Board.c *)

(** [esc_period] is the value of [BR_ESC_PERIOD_SEC * (SysCtlClockGet())] as
    [PWMGenPeriodSet] receives it; the product is a float expression over a
    constant of MIL_BR_ESC.h and is not computed here. *)
Definition TKB_PWM0_Init {cfg : config} (esc_period : Z) : list call :=
  [SysCtlPeripheralEnable SYSCTL_PERIPH_PWM0]
  ++ [GPIOPinConfigure GPIO_PB6_M0PWM0;
      GPIOPinConfigure GPIO_PB7_M0PWM1;
      GPIOPinConfigure GPIO_PB4_M0PWM2;
      GPIOPinConfigure GPIO_PB5_M0PWM3;
      GPIOPinConfigure GPIO_PE4_M0PWM4;
      GPIOPinConfigure GPIO_PE5_M0PWM5;
      GPIOPinConfigure GPIO_PC4_M0PWM6;
      GPIOPinConfigure GPIO_PC5_M0PWM7]
  ++ [GPIOPinTypePWM GPIO_PORTB
        (Z.lor (Z.lor (Z.lor GPIO_PIN_6 GPIO_PIN_7) GPIO_PIN_4) GPIO_PIN_5);
      GPIOPinTypePWM GPIO_PORTC (Z.lor GPIO_PIN_4 GPIO_PIN_5);
      GPIOPinTypePWM GPIO_PORTE (Z.lor GPIO_PIN_4 GPIO_PIN_5)]
  ++ [PWMGenConfigure TKB_PWM_BASE TKB_FH_PWM_GEN
        [PWM_GEN_MODE_UP_DOWN; PWM_GEN_MODE_NO_SYNC];
      PWMGenConfigure TKB_PWM_BASE TKB_FV_PWM_GEN
        [PWM_GEN_MODE_UP_DOWN; PWM_GEN_MODE_NO_SYNC];
      PWMGenConfigure TKB_PWM_BASE TKB_BH_PWM_GEN
        [PWM_GEN_MODE_UP_DOWN; PWM_GEN_MODE_NO_SYNC];
      PWMGenConfigure TKB_PWM_BASE TKB_BV_PWM_GEN
        [PWM_GEN_MODE_UP_DOWN; PWM_GEN_MODE_NO_SYNC]]
  ++ [PWMGenPeriodSet TKB_PWM_BASE TKB_FH_PWM_GEN esc_period;
      PWMGenPeriodSet TKB_PWM_BASE TKB_FV_PWM_GEN esc_period;
      PWMGenPeriodSet TKB_PWM_BASE TKB_BH_PWM_GEN esc_period;
      PWMGenPeriodSet TKB_PWM_BASE TKB_BV_PWM_GEN esc_period]
  ++ [PWMGenEnable TKB_PWM_BASE TKB_FH_PWM_GEN;
      PWMGenEnable TKB_PWM_BASE TKB_FV_PWM_GEN;
      PWMGenEnable TKB_PWM_BASE TKB_BH_PWM_GEN;
      PWMGenEnable TKB_PWM_BASE TKB_BV_PWM_GEN].

(** *** Reading a bring-up trace *)

(** The pins of a mask, lowest first (ports are eight pins wide). *)
Definition pins_of_mask (pins : Z) : list Z :=
  filter (Z.testbit pins) [0; 1; 2; 3; 4; 5; 6; 7].

(** The pins a trace switches to an alternate signal. *)
Fixpoint muxed_pins (t : list call) : list (port_id * Z) :=
  match t with
  | [] => []
  | GPIOPinConfigure m :: t' => (mux_port m, mux_pin m) :: muxed_pins t'
  | _ :: t' => muxed_pins t'
  end.

(** The pins a trace hands to a peripheral (CAN or PWM pad type). *)
Fixpoint typed_pins (t : list call) : list (port_id * Z) :=
  match t with
  | [] => []
  | GPIOPinTypeCAN port pins :: t'
  | GPIOPinTypePWM port pins :: t' =>
      map (fun n => (port, n)) (pins_of_mask pins) ++ typed_pins t'
  | _ :: t' => typed_pins t'
  end.

(** The GPIO clock a port needs. *)
Definition port_clock (p : port_id) : option periph :=
  match p with
  | GPIO_PORTA => Some SYSCTL_PERIPH_GPIOA
  | GPIO_PORTB => Some SYSCTL_PERIPH_GPIOB
  | GPIO_PORTE => Some SYSCTL_PERIPH_GPIOE
  | GPIO_PORTF => Some SYSCTL_PERIPH_GPIOF
  | GPIO_PORTC => None
  end.

Definition is_gpio_clock (p : periph) : bool :=
  match p with
  | SYSCTL_PERIPH_GPIOA | SYSCTL_PERIPH_GPIOB
  | SYSCTL_PERIPH_GPIOE | SYSCTL_PERIPH_GPIOF => true
  | _ => false
  end.

(** The clocks a trace enables. *)
Fixpoint clocks_enabled (t : list call) : list periph :=
  match t with
  | [] => []
  | SysCtlPeripheralEnable p :: t' => p :: clocks_enabled t'
  | _ :: t' => clocks_enabled t'
  end.

Definition is_interrupt_call (c : call) : bool :=
  match c with
  | CANIntRegister _ _ | CANIntEnable _ _ | IntEnable _ => true
  | _ => false
  end.

(** The calls of a trace that act on a PWM generator. *)
Definition is_pwm_gen_call (c : call) : bool :=
  match c with
  | PWMGenConfigure _ _ _ | PWMGenPeriodSet _ _ _ | PWMGenEnable _ _ => true
  | _ => false
  end.

Definition port_eqb (p q : port_id) : bool :=
  match p, q with
  | GPIO_PORTA, GPIO_PORTA | GPIO_PORTB, GPIO_PORTB | GPIO_PORTC, GPIO_PORTC
  | GPIO_PORTE, GPIO_PORTE | GPIO_PORTF, GPIO_PORTF => true
  | _, _ => false
  end.

(** Whether two lists of pins have a pin in common. *)
Definition pins_clash (l1 l2 : list (port_id * Z)) : bool :=
  existsb (fun p =>
    existsb (fun q => port_eqb (fst p) (fst q) && (snd p =? snd q)) l2) l1.

Definition periph_eqb (p q : periph) : bool :=
  match p, q with
  | SYSCTL_PERIPH_CAN0, SYSCTL_PERIPH_CAN0
  | SYSCTL_PERIPH_CAN1, SYSCTL_PERIPH_CAN1
  | SYSCTL_PERIPH_GPIOA, SYSCTL_PERIPH_GPIOA
  | SYSCTL_PERIPH_GPIOB, SYSCTL_PERIPH_GPIOB
  | SYSCTL_PERIPH_GPIOE, SYSCTL_PERIPH_GPIOE
  | SYSCTL_PERIPH_GPIOF, SYSCTL_PERIPH_GPIOF
  | SYSCTL_PERIPH_PWM0, SYSCTL_PERIPH_PWM0 => true
  | _, _ => false
  end.

(** Whether every pin of [pins] is on a port whose clock is among
    [clocks]. *)
Definition pins_clocked (clocks : list periph) (pins : list (port_id * Z))
  : bool :=
  forallb (fun p =>
    match port_clock (fst p) with
    | Some c => existsb (periph_eqb c) clocks
    | None => false
    end) pins.

(** The interrupt of a CAN controller, by the controller's clock. *)
Definition periph_interrupt (p : periph) : option interrupt :=
  match p with
  | SYSCTL_PERIPH_CAN0 => Some INT_CAN0
  | SYSCTL_PERIPH_CAN1 => Some INT_CAN1
  | _ => None
  end.

(** The interrupts a trace enables at the CPU. *)
Fixpoint ints_enabled (t : list call) : list interrupt :=
  match t with
  | [] => []
  | IntEnable i :: t' => i :: ints_enabled t'
  | _ :: t' => ints_enabled t'
  end.

(** The signals a trace switches pins to, in the order of the calls. *)
Fixpoint muxed_signals (t : list call) : list pin_signal :=
  match t with
  | [] => []
  | GPIOPinConfigure m :: t' => mux_signal m :: muxed_signals t'
  | _ :: t' => muxed_signals t'
  end.

Definition gen_mem (g : Z * Z) (l : list (Z * Z)) : bool :=
  existsb (fun h => (fst g =? fst h) && (snd g =? snd h)) l.

(** Whether every generator a trace enables has, by then, been configured
    and given a period; [configured] and [with_period] are the generators
    configured and given a period before the trace starts. *)
Fixpoint gens_ready_when_enabled
  (configured with_period : list (Z * Z)) (t : list call) : bool :=
  match t with
  | [] => true
  | PWMGenConfigure base gen _ :: t' =>
      gens_ready_when_enabled ((base, gen) :: configured) with_period t'
  | PWMGenPeriodSet base gen _ :: t' =>
      gens_ready_when_enabled configured ((base, gen) :: with_period) t'
  | PWMGenEnable base gen :: t' =>
      gen_mem (base, gen) configured
      && gen_mem (base, gen) with_period
      && gens_ready_when_enabled configured with_period t'
  | _ :: t' => gens_ready_when_enabled configured with_period t'
  end.

End Bringup.

Export Bringup.

(** ** Reading the kill sequences and the hall configuration *)

Module Reading.

(** The board as it is at each CAN transmission of a trace. *)
Fixpoint boards_at_tx (t : trace) (b : board) : list board :=
  match t with
  | [] => []
  | a :: t' =>
      (if is_can_tx a then [b] else []) ++ boards_at_tx t' (step b a)
  end.

(** A transmission whose length field is the size of the buffer it points
    to, and at most the eight bytes of a CAN frame. *)
Definition tx_in_bounds (a : action) : bool :=
  match a with
  | CANMessageSet _ _ msg _ =>
      (ui32MsgLen msg =? Z.of_nat (length (pui8MsgData msg)))
      && (ui32MsgLen msg <=? 8)
  | _ => true
  end.

(** The level an undriven input reads with a weak pull. *)
Definition idle_level (p : pad_type) : bool :=
  match p with
  | GPIO_PIN_TYPE_STD_WPU => true
  | GPIO_PIN_TYPE_STD_WPD => false
  end.

(** The edge a pin makes when its level goes from [before] to [after]. *)
Definition edge_between (before after : bool) : option int_edge :=
  match before, after with
  | false, true => Some GPIO_RISING_EDGE
  | true, false => Some GPIO_FALLING_EDGE
  | _, _ => None
  end.

(** All ten payload constants of the protocol. *)
Definition all_payloads : list (list Z) :=
  [Hard_Killed; Soft_Killed; Hard_UnKilled; Soft_UnKilled;
   Go_Asserted; Go_UnAsserted;
   Hard_Killed_CMD; Soft_Killed_CMD; Hard_UnKilled_CMD; Soft_UnKilled_CMD].

End Reading.

Export Reading.

(** * Properties *)

(** ** Generic facts about traces and the board *)

(** A trace without PWM output switch leaves the PWM output as it was. *)
Lemma run_keeps_pwm_output (t : trace) :
  forallb (fun a => negb (is_pwm_output_switch a)) t = true ->
  forall b, pwm_output (run t b) = pwm_output b.
Proof.
  induction t as [|a t IH]; simpl; intros H b; [reflexivity|].
  apply andb_true_iff in H. destruct H as [Ha Ht].
  unfold run in *. simpl. rewrite (IH Ht).
  destruct a as [| | | | | |  |m]; simpl in *; try reflexivity; try discriminate.
  destruct m; simpl in *; try reflexivity; discriminate.
Qed.

(** A trace without GPIO interrupt call leaves the interrupt configuration
    as it was. *)
Lemma run_keeps_gpio_int (t : trace) :
  forallb (fun a => negb (is_gpio_int_config a)) t = true ->
  forall b, gpio_int (run t b) = gpio_int b.
Proof.
  induction t as [|a t IH]; simpl; intros H b; [reflexivity|].
  apply andb_true_iff in H. destruct H as [Ha Ht].
  unfold run in *. simpl. rewrite (IH Ht).
  destruct a as [| | | | | |  |m]; simpl in *; try reflexivity; try discriminate.
  destruct m; reflexivity.
Qed.

(** ** Kill sequences *)

Section KillSequences.

Context {cfg : config}.

(** The eight stop pulses, one per thruster, each with the stop width of the
    thruster's generator. *)
Lemma stop_all_thrust_pulses :
  TKB_StopAllThrust =
  [ PWMPulseWidthSet TKB_PWM_BASE TKB_PWM_FHL_PIN (PWM_STOP_PER TKB_PWM_BASE TKB_FH_PWM_GEN);
    PWMPulseWidthSet TKB_PWM_BASE TKB_PWM_FHR_PIN (PWM_STOP_PER TKB_PWM_BASE TKB_FH_PWM_GEN);
    PWMPulseWidthSet TKB_PWM_BASE TKB_PWM_FVL_PIN (PWM_STOP_PER TKB_PWM_BASE TKB_FV_PWM_GEN);
    PWMPulseWidthSet TKB_PWM_BASE TKB_PWM_FVR_PIN (PWM_STOP_PER TKB_PWM_BASE TKB_FV_PWM_GEN);
    PWMPulseWidthSet TKB_PWM_BASE TKB_PWM_BHL_PIN (PWM_STOP_PER TKB_PWM_BASE TKB_BH_PWM_GEN);
    PWMPulseWidthSet TKB_PWM_BASE TKB_PWM_BHR_PIN (PWM_STOP_PER TKB_PWM_BASE TKB_BH_PWM_GEN);
    PWMPulseWidthSet TKB_PWM_BASE TKB_PWM_BVL_PIN (PWM_STOP_PER TKB_PWM_BASE TKB_BV_PWM_GEN);
    PWMPulseWidthSet TKB_PWM_BASE TKB_PWM_BVR_PIN (PWM_STOP_PER TKB_PWM_BASE TKB_BV_PWM_GEN) ].
Proof. reflexivity. Qed.

Lemma soft_kill_no_pwm_switch :
  forallb (fun a => negb (is_pwm_output_switch a)) TKB_SoftKill = true.
Proof. reflexivity. Qed.

(** C1 (as amended).  The hard kill performs, in this order: the stop pulse
    on all eight thrusters, thruster power cut, the soft-killed status frame,
    the hard-killed status frame, five one-second delays, and main power cut
    as its last action.  Whatever the board was before, main and thruster
    power are off afterwards and the state read off the board is hard
    killed.  Actions that switch the PWM output are left out of the
    comparison. *)
Theorem hard_kill_sequence (b : board) :
  filter (fun a => negb (is_pwm_output_switch a)) TKB_HardKill =
    TKB_StopAllThrust
    ++ [Macro KILL_THRUSTERS]
    ++ MIL_CANSimpleTX TKB_CANID Soft_Killed C_KILL_LEN TKB_CAN_BASE
    ++ MIL_CANSimpleTX TKB_CANID Hard_Killed C_KILL_LEN TKB_CAN_BASE
    ++ for_count 5 [Macro SEC_1_DELAY]
    ++ [Macro KILL_MAIN]
  /\ last TKB_HardKill (Macro SEC_1_DELAY) = Macro KILL_MAIN
  /\ main_power (run TKB_HardKill b) = false
  /\ thruster_power (run TKB_HardKill b) = false
  /\ kill_state_of (run TKB_HardKill b) = HardKilled.
Proof.
  repeat split; reflexivity.
Qed.

(** C2.  The soft kill is exactly: the eight stop pulses, thruster power
    cut, the soft-killed status frame.  None of its actions switches the PWM
    output, so the output is after the soft kill what it was before; on a
    running board it stays enabled. *)
Theorem soft_kill_leaves_pwm_output (b : board) :
  TKB_SoftKill =
    TKB_StopAllThrust
    ++ [Macro KILL_THRUSTERS]
    ++ MIL_CANSimpleTX TKB_CANID Soft_Killed C_KILL_LEN TKB_CAN_BASE
  /\ filter is_pwm_output_switch TKB_SoftKill = []
  /\ pwm_output (run TKB_SoftKill b) = pwm_output b
  /\ pwm_output (run TKB_SoftKill running_board) = true.
Proof.
  split; [reflexivity|]. split; [reflexivity|]. split.
  - apply run_keeps_pwm_output. exact soft_kill_no_pwm_switch.
  - reflexivity.
Qed.

(** C8.  The unkill from hard kill performs, in this order: main power on,
    thruster power on, then the ESC initialisation (thruster power once
    more, two one-second delays, the stop pulse on all eight thrusters) and
    the PWM output enable as its last action.  Whatever the board was
    before, the state read off the board afterwards is running. *)
Theorem unkill_sequence (b : board) :
  TKB_UnKill =
  [ Macro POWER_MAIN;
    Macro POWER_THRUSTERS;
    Macro POWER_THRUSTERS;
    Macro SEC_1_DELAY;
    Macro SEC_1_DELAY;
    PWMPulseWidthSet TKB_PWM_BASE TKB_PWM_FHL_PIN (PWM_STOP_PER TKB_PWM_BASE TKB_FH_PWM_GEN);
    PWMPulseWidthSet TKB_PWM_BASE TKB_PWM_FHR_PIN (PWM_STOP_PER TKB_PWM_BASE TKB_FH_PWM_GEN);
    PWMPulseWidthSet TKB_PWM_BASE TKB_PWM_FVL_PIN (PWM_STOP_PER TKB_PWM_BASE TKB_FV_PWM_GEN);
    PWMPulseWidthSet TKB_PWM_BASE TKB_PWM_FVR_PIN (PWM_STOP_PER TKB_PWM_BASE TKB_FV_PWM_GEN);
    PWMPulseWidthSet TKB_PWM_BASE TKB_PWM_BHL_PIN (PWM_STOP_PER TKB_PWM_BASE TKB_BH_PWM_GEN);
    PWMPulseWidthSet TKB_PWM_BASE TKB_PWM_BHR_PIN (PWM_STOP_PER TKB_PWM_BASE TKB_BH_PWM_GEN);
    PWMPulseWidthSet TKB_PWM_BASE TKB_PWM_BVL_PIN (PWM_STOP_PER TKB_PWM_BASE TKB_BV_PWM_GEN);
    PWMPulseWidthSet TKB_PWM_BASE TKB_PWM_BVR_PIN (PWM_STOP_PER TKB_PWM_BASE TKB_BV_PWM_GEN);
    Macro TKB_PWM_OUT_EN ]
  /\ TKB_UnKill =
     [Macro POWER_MAIN; Macro POWER_THRUSTERS]
     ++ [Macro POWER_THRUSTERS; Macro SEC_1_DELAY; Macro SEC_1_DELAY]
     ++ TKB_StopAllThrust
     ++ [Macro TKB_PWM_OUT_EN]
  /\ main_power (run TKB_UnKill b) = true
  /\ thruster_power (run TKB_UnKill b) = true
  /\ pwm_output (run TKB_UnKill b) = true
  /\ kill_state_of (run TKB_UnKill b) = Running.
Proof.
  repeat split; reflexivity.
Qed.

End KillSequences.

(** C1 (as stated).  On the sample board the hard kill is not the sequence
    of the transition table: its trace ends with the main power cut, not
    with the hard-killed status frame. *)
Lemma hard_kill_not_spec_order :
  ~ spec_hard_kill_order (cfg := sub8) (TKB_HardKill (cfg := sub8)).
Proof.
  intros [pwm_off [_ H]].
  apply (f_equal (fun t => last t (Macro SEC_1_DELAY))) in H.
  vm_compute in H. discriminate H.
Qed.

(** C9.  [MIL_CANSimpleTX] performs one call, on message object 0, for
    transmission, of a message object that carries the caller's identifier,
    length and payload and has flags 0; and the two transmissions of a hard
    kill both use message object 0. *)
Theorem simple_tx_uses_object_zero
  (cfg : config) (canid : Z) (pMsg : list Z) (MsgLen base : Z) :
  MIL_CANSimpleTX canid pMsg MsgLen base =
    [CANMessageSet base 0
       {| ui32MsgID := canid; ui32MsgIDMask := None; ui32Flags := 0;
          ui32MsgLen := MsgLen; pui8MsgData := pMsg |}
       MSG_OBJ_TYPE_TX]
  /\ map can_obj_id (MIL_CANSimpleTX canid pMsg MsgLen base) = [Some 0]
  /\ map can_obj_id (filter is_can_tx (TKB_HardKill (cfg := cfg)))
     = [Some 0; Some 0].
Proof.
  repeat split; reflexivity.
Qed.

(** ** Hall sensors *)

Section HallSensors.

Context {cfg : config}.

(** Masking twice with the same pins is masking once. *)
Lemma pin_read_mask (gpio : Z -> Z) (pins : Z) :
  Z.land (GPIOPinRead gpio GPIO_PORTB_BASE pins) pins
  = Z.land (gpio GPIO_PORTB_BASE) pins.
Proof.
  unfold GPIOPinRead. rewrite <- Z.land_assoc, Z.land_diag. reflexivity.
Qed.

Lemma HALL_CheckGo_eq (gpio : Z -> Z) :
  HALL_CheckGo gpio = if pin_high gpio HALL_GO_PIN then HALL_HI else HALL_LO.
Proof. unfold HALL_CheckGo, pin_high. rewrite pin_read_mask. reflexivity. Qed.

Lemma HALL_CheckSoftKill_eq (gpio : Z -> Z) :
  HALL_CheckSoftKill gpio
  = if pin_high gpio HALL_SOFTKILL_PIN then HALL_HI else HALL_LO.
Proof. unfold HALL_CheckSoftKill, pin_high. rewrite pin_read_mask. reflexivity. Qed.

Lemma HALL_Check_ON_OFF_eq (gpio : Z -> Z) :
  HALL_Check_ON_OFF gpio
  = if pin_high gpio HALL_ON_OFF_PIN then HALL_HI else HALL_LO.
Proof. unfold HALL_Check_ON_OFF, pin_high. rewrite pin_read_mask. reflexivity. Qed.

(** A check that answers by the raw level answers [HALL_HI] exactly on a
    high pin, whatever the polarity; under active-high this is "magnet
    present", under active-low it is "magnet absent". *)
Lemma raw_level_check (hi lo : Z) (raw : bool) :
  hi <> lo ->
  ((if raw then hi else lo) = hi <-> raw = true)
  /\ ((if raw then hi else lo) = hi <-> magnet_present ActiveHigh raw = true)
  /\ ((if raw then hi else lo) = lo <-> magnet_present ActiveLow raw = true).
Proof.
  intros Hne. destruct raw; simpl; repeat split; intros H;
    try reflexivity; try discriminate; congruence.
Qed.

(** C3 (as amended).  Each of the three checks returns [HALL_HI] exactly
    when its pin reads high and [HALL_LO] otherwise, independently of the
    activation polarity.  With an active-high sensor that is exactly when
    the magnet is present; with an active-low sensor the magnet is present
    exactly when the check returns [HALL_LO]. *)
Theorem hall_check_raw_level (gpio : Z -> Z) :
  HALL_HI <> HALL_LO ->
  ((HALL_CheckGo gpio = HALL_HI <-> pin_high gpio HALL_GO_PIN = true)
   /\ (HALL_CheckGo gpio = HALL_HI
       <-> magnet_present ActiveHigh (pin_high gpio HALL_GO_PIN) = true)
   /\ (HALL_CheckGo gpio = HALL_LO
       <-> magnet_present ActiveLow (pin_high gpio HALL_GO_PIN) = true))
  /\
  ((HALL_CheckSoftKill gpio = HALL_HI <-> pin_high gpio HALL_SOFTKILL_PIN = true)
   /\ (HALL_CheckSoftKill gpio = HALL_HI
       <-> magnet_present ActiveHigh (pin_high gpio HALL_SOFTKILL_PIN) = true)
   /\ (HALL_CheckSoftKill gpio = HALL_LO
       <-> magnet_present ActiveLow (pin_high gpio HALL_SOFTKILL_PIN) = true))
  /\
  ((HALL_Check_ON_OFF gpio = HALL_HI <-> pin_high gpio HALL_ON_OFF_PIN = true)
   /\ (HALL_Check_ON_OFF gpio = HALL_HI
       <-> magnet_present ActiveHigh (pin_high gpio HALL_ON_OFF_PIN) = true)
   /\ (HALL_Check_ON_OFF gpio = HALL_LO
       <-> magnet_present ActiveLow (pin_high gpio HALL_ON_OFF_PIN) = true)).
Proof.
  intros Hne.
  rewrite HALL_CheckGo_eq, HALL_CheckSoftKill_eq, HALL_Check_ON_OFF_eq.
  split; [|split]; apply raw_level_check; exact Hne.
Qed.

(** The pad configuration the initialisation performs, for a given pull. *)
Lemma Init_HALL_IO_trace (activation_lvl : Z) :
  Init_HALL_IO activation_lvl =
  [ GPIOPinTypeGPIOInput GPIO_PORTB_BASE HALL_SOFTKILL_PIN;
    GPIOPinTypeGPIOInput GPIO_PORTB_BASE HALL_GO_PIN;
    GPIOPinTypeGPIOInput GPIO_PORTB_BASE HALL_ON_OFF_PIN;
    GPIOPadConfigSet GPIO_PORTB_BASE HALL_SOFTKILL_PIN GPIO_STRENGTH_2MA
      (fst (Init_HALL_IO_switch activation_lvl));
    GPIOPadConfigSet GPIO_PORTB_BASE HALL_GO_PIN GPIO_STRENGTH_2MA
      (fst (Init_HALL_IO_switch activation_lvl));
    GPIOPadConfigSet GPIO_PORTB_BASE HALL_ON_OFF_PIN GPIO_STRENGTH_2MA
      (fst (Init_HALL_IO_switch activation_lvl)) ].
Proof.
  unfold Init_HALL_IO.
  destruct (Init_HALL_IO_switch activation_lvl) as [pull edge]. reflexivity.
Qed.

(** C4.  The hall initialisation sets the three pins to input and
    configures their pads with the pull the activation level selects, and
    nothing else: the edge the [switch] selects (rising for active-low,
    falling for active-high) reaches no driver call, no action of the trace
    configures or enables a GPIO interrupt, and the interrupt configuration
    of the board is afterwards what it was before. *)
Theorem hall_init_configures_no_interrupt (activation_lvl : Z) (b : board) :
  Init_HALL_IO_switch HALL_ACT_LO = (GPIO_PIN_TYPE_STD_WPU, GPIO_RISING_EDGE)
  /\ Init_HALL_IO activation_lvl =
     [ GPIOPinTypeGPIOInput GPIO_PORTB_BASE HALL_SOFTKILL_PIN;
       GPIOPinTypeGPIOInput GPIO_PORTB_BASE HALL_GO_PIN;
       GPIOPinTypeGPIOInput GPIO_PORTB_BASE HALL_ON_OFF_PIN;
       GPIOPadConfigSet GPIO_PORTB_BASE HALL_SOFTKILL_PIN GPIO_STRENGTH_2MA
         (fst (Init_HALL_IO_switch activation_lvl));
       GPIOPadConfigSet GPIO_PORTB_BASE HALL_GO_PIN GPIO_STRENGTH_2MA
         (fst (Init_HALL_IO_switch activation_lvl));
       GPIOPadConfigSet GPIO_PORTB_BASE HALL_ON_OFF_PIN GPIO_STRENGTH_2MA
         (fst (Init_HALL_IO_switch activation_lvl)) ]
  /\ filter is_gpio_int_config (Init_HALL_IO activation_lvl) = []
  /\ length (Init_HALL_IO activation_lvl) = 6%nat
  /\ gpio_int (run (Init_HALL_IO activation_lvl) b) = gpio_int b
  /\ gpio_int (run (Init_HALL_IO HALL_ACT_LO) booted_board) = [].
Proof.
  assert (Hnone : forallb (fun a => negb (is_gpio_int_config a))
                    (Init_HALL_IO activation_lvl) = true)
    by (rewrite Init_HALL_IO_trace; reflexivity).
  repeat split.
  - unfold Init_HALL_IO_switch. rewrite Z.eqb_refl. reflexivity.
  - apply Init_HALL_IO_trace.
  - rewrite Init_HALL_IO_trace. reflexivity.
  - rewrite Init_HALL_IO_trace. reflexivity.
  - apply run_keeps_gpio_int. exact Hnone.
  - rewrite Init_HALL_IO_trace. reflexivity.
Qed.

(** C10.  For an activation level that is neither [HALL_ACT_LO] nor
    [HALL_ACT_HI] the [switch] takes its default branch: weak pull-down and
    falling edge.  The initialisation completes with the same six driver
    calls as for [HALL_ACT_HI]; no call reports the value. *)
Theorem hall_init_default_is_active_high (activation_lvl : Z) :
  HALL_ACT_LO <> HALL_ACT_HI ->
  activation_lvl <> HALL_ACT_LO ->
  activation_lvl <> HALL_ACT_HI ->
  Init_HALL_IO_switch activation_lvl
    = (GPIO_PIN_TYPE_STD_WPD, GPIO_FALLING_EDGE)
  /\ Init_HALL_IO_switch activation_lvl = Init_HALL_IO_switch HALL_ACT_HI
  /\ Init_HALL_IO activation_lvl = Init_HALL_IO HALL_ACT_HI
  /\ Init_HALL_IO activation_lvl =
     [ GPIOPinTypeGPIOInput GPIO_PORTB_BASE HALL_SOFTKILL_PIN;
       GPIOPinTypeGPIOInput GPIO_PORTB_BASE HALL_GO_PIN;
       GPIOPinTypeGPIOInput GPIO_PORTB_BASE HALL_ON_OFF_PIN;
       GPIOPadConfigSet GPIO_PORTB_BASE HALL_SOFTKILL_PIN GPIO_STRENGTH_2MA
         GPIO_PIN_TYPE_STD_WPD;
       GPIOPadConfigSet GPIO_PORTB_BASE HALL_GO_PIN GPIO_STRENGTH_2MA
         GPIO_PIN_TYPE_STD_WPD;
       GPIOPadConfigSet GPIO_PORTB_BASE HALL_ON_OFF_PIN GPIO_STRENGTH_2MA
         GPIO_PIN_TYPE_STD_WPD ].
Proof.
  intros Hdist Hlo Hhi.
  assert (Hsw : Init_HALL_IO_switch activation_lvl
                = (GPIO_PIN_TYPE_STD_WPD, GPIO_FALLING_EDGE)).
  { unfold Init_HALL_IO_switch.
    destruct (Z.eqb_spec activation_lvl HALL_ACT_LO) as [E|_]; [contradiction|].
    destruct (activation_lvl =? HALL_ACT_HI); reflexivity. }
  assert (Hhi' : Init_HALL_IO_switch HALL_ACT_HI
                 = (GPIO_PIN_TYPE_STD_WPD, GPIO_FALLING_EDGE)).
  { unfold Init_HALL_IO_switch.
    destruct (Z.eqb_spec HALL_ACT_HI HALL_ACT_LO) as [E|_];
      [symmetry in E; contradiction|].
    rewrite Z.eqb_refl. reflexivity. }
  repeat split.
  - exact Hsw.
  - rewrite Hsw, Hhi'. reflexivity.
  - rewrite !Init_HALL_IO_trace, Hsw, Hhi'. reflexivity.
  - rewrite Init_HALL_IO_trace, Hsw. reflexivity.
Qed.

End HallSensors.

(** C3 (as stated).  On the sample board with every pin of port B low, an
    active-low go sensor has its magnet present, and the check returns
    [HALL_LO], which is not [HALL_HI]. *)
Lemma hall_check_active_low_counterexample :
  magnet_present ActiveLow
    (pin_high (cfg := sub8) (fun _ => 0) (HALL_GO_PIN (config := sub8))) = true
  /\ HALL_CheckGo (cfg := sub8) (fun _ => 0) = HALL_LO (config := sub8)
  /\ HALL_CheckGo (cfg := sub8) (fun _ => 0) <> HALL_HI (config := sub8).
Proof.
  split; [reflexivity|]. split; [reflexivity|].
  vm_compute. discriminate.
Qed.

Lemma hall_check_raw_level_witness :
  HALL_HI (config := sub8) <> HALL_LO (config := sub8)
  /\ (HALL_CheckGo (cfg := sub8) (fun _ => 0x02)
      = HALL_HI (config := sub8)
      <-> pin_high (cfg := sub8) (fun _ => 0x02)
            (HALL_GO_PIN (config := sub8)) = true).
Proof.
  assert (Hne : HALL_HI (config := sub8) <> HALL_LO (config := sub8))
    by (vm_compute; discriminate).
  split; [exact Hne|].
  exact (proj1 (proj1 (hall_check_raw_level (cfg := sub8) (fun _ => 0x02) Hne))).
Defined.

Lemma hall_init_default_is_active_high_witness :
  (HALL_ACT_LO (config := sub8) <> HALL_ACT_HI (config := sub8)
   /\ 2 <> HALL_ACT_LO (config := sub8)
   /\ 2 <> HALL_ACT_HI (config := sub8))
  /\ Init_HALL_IO_switch (cfg := sub8) 2
     = (GPIO_PIN_TYPE_STD_WPD, GPIO_FALLING_EDGE)
  /\ Init_HALL_IO (cfg := sub8) 2 = Init_HALL_IO (cfg := sub8) 1.
Proof.
  assert (Hd : HALL_ACT_LO (config := sub8) <> HALL_ACT_HI (config := sub8))
    by (vm_compute; discriminate).
  assert (Hlo : 2 <> HALL_ACT_LO (config := sub8))
    by (vm_compute; discriminate).
  assert (Hhi : 2 <> HALL_ACT_HI (config := sub8))
    by (vm_compute; discriminate).
  split; [repeat split; assumption|].
  pose proof (hall_init_default_is_active_high (cfg := sub8) 2 Hd Hlo Hhi)
    as [Hsw [_ [Htr _]]].
  split; [exact Hsw | exact Htr].
Defined.

(** ** CAN frames *)

(** C5.  The six status constants are the literal byte sequences K R H A,
    K R S A, K R H U, K R S U, G A and G U, each followed by one zero byte;
    the kill frames have the declared length 5 and the go frames the
    declared length 3, which is the number of bytes of the constant, and the
    last byte of every one of them is the zero terminator. *)
Theorem status_frames_literal (e : status_event) :
  status_payload EvHardKilled = [0x4B; 0x52; 0x48; 0x41; 0x00]
  /\ status_payload EvSoftKilled = [0x4B; 0x52; 0x53; 0x41; 0x00]
  /\ status_payload EvHardUnkilled = [0x4B; 0x52; 0x48; 0x55; 0x00]
  /\ status_payload EvSoftUnkilled = [0x4B; 0x52; 0x53; 0x55; 0x00]
  /\ status_payload EvGoAsserted = [0x47; 0x41; 0x00]
  /\ status_payload EvGoUnasserted = [0x47; 0x55; 0x00]
  /\ status_length EvHardKilled = 5
  /\ status_length EvSoftKilled = 5
  /\ status_length EvHardUnkilled = 5
  /\ status_length EvSoftUnkilled = 5
  /\ status_length EvGoAsserted = 3
  /\ status_length EvGoUnasserted = 3
  /\ Z.of_nat (length (status_payload e)) = status_length e
  /\ last (status_payload e) 1 = 0.
Proof.
  repeat split; try reflexivity; destruct e; reflexivity.
Qed.

Section InboundMessages.

Context {cfg : config}.

(** C6.  For a message buffer that reaches the type-tag offset, the kill
    check returns 1 when the byte at that offset is the kill start byte and
    0 otherwise, the thrust check returns 1 when that byte is the thrust
    start byte and 0 otherwise, and any other buffer with the same byte at
    that offset is classified the same way. *)
Theorem check_msg_type_tag (pMsg : list Z) (tag : Z) :
  nth_error pMsg MSG_TYPE_IDX = Some tag ->
  (TKB_Check_KillMsg pMsg = Some 1 <-> tag = KILL_START_BYTE)
  /\ (TKB_Check_KillMsg pMsg = Some 0 <-> tag <> KILL_START_BYTE)
  /\ (TKB_Check_ThrustMsg pMsg = Some 1 <-> tag = THRUST_START_BYTE)
  /\ (TKB_Check_ThrustMsg pMsg = Some 0 <-> tag <> THRUST_START_BYTE)
  /\ (forall pMsg' : list Z,
        nth_error pMsg' MSG_TYPE_IDX = Some tag ->
        TKB_Check_KillMsg pMsg' = TKB_Check_KillMsg pMsg
        /\ TKB_Check_ThrustMsg pMsg' = TKB_Check_ThrustMsg pMsg).
Proof.
  intros Htag. unfold TKB_Check_KillMsg, TKB_Check_ThrustMsg. rewrite Htag.
  split; [|split; [|split; [|split; [|intros pMsg' Htag'; rewrite Htag';
                                       split; reflexivity]]]]; split.
  - destruct (Z.eqb_spec tag KILL_START_BYTE); [trivial | discriminate].
  - intros ->. rewrite Z.eqb_refl. reflexivity.
  - destruct (Z.eqb_spec tag KILL_START_BYTE); [discriminate | trivial].
  - intros Hne. destruct (Z.eqb_spec tag KILL_START_BYTE);
      [contradiction | reflexivity].
  - destruct (Z.eqb_spec tag THRUST_START_BYTE); [trivial | discriminate].
  - intros ->. rewrite Z.eqb_refl. reflexivity.
  - destruct (Z.eqb_spec tag THRUST_START_BYTE); [discriminate | trivial].
  - intros Hne. destruct (Z.eqb_spec tag THRUST_START_BYTE);
      [contradiction | reflexivity].
Qed.

End InboundMessages.

Lemma check_msg_type_tag_witness :
  nth_error Hard_Killed_CMD (MSG_TYPE_IDX (config := sub8)) = Some 0x4B
  /\ TKB_Check_KillMsg (cfg := sub8) Hard_Killed_CMD = Some 1
  /\ TKB_Check_ThrustMsg (cfg := sub8) Hard_Killed_CMD = Some 0.
Proof.
  assert (Htag : nth_error Hard_Killed_CMD (MSG_TYPE_IDX (config := sub8))
                 = Some 0x4B) by reflexivity.
  pose proof (check_msg_type_tag (cfg := sub8) Hard_Killed_CMD 0x4B Htag)
    as [Hk [_ [_ [Ht _]]]].
  split; [exact Htag|]. split.
  - apply Hk. reflexivity.
  - apply Ht. vm_compute. discriminate.
Defined.

(** ** Thrust mapping *)

Local Open Scope Q_scope.

(** Turns every [Qle_bool] test in the context into the order fact it
    decides. *)
Ltac qle_facts :=
  repeat match goal with
  | H : Qle_bool _ _ = true |- _ => rewrite Qle_bool_iff in H
  | H : Qle_bool _ _ = false |- _ =>
      apply not_true_iff_false in H; rewrite Qle_bool_iff in H
  end.

Lemma clamp_speed_mono (s1 s2 : Q) :
  s1 <= s2 -> clamp_speed s1 <= clamp_speed s2.
Proof.
  intros H. unfold clamp_speed.
  destruct (Qle_bool s1 (-1)) eqn:E1; destruct (Qle_bool s2 (-1)) eqn:E2;
    destruct (Qle_bool 1 s1) eqn:E3; destruct (Qle_bool 1 s2) eqn:E4;
    qle_facts; lra.
Qed.

(** The two-piece interpolation is monotone when the three widths are in
    order. *)
Lemma interpolation_mono (rev stop fwd s1 s2 : Q) :
  rev <= stop -> stop <= fwd -> s1 <= s2 ->
  (if Qle_bool 0 s1 then stop + s1 * (fwd - stop)
   else stop + s1 * (stop - rev))
  <= (if Qle_bool 0 s2 then stop + s2 * (fwd - stop)
      else stop + s2 * (stop - rev)).
Proof.
  intros Hr Hf H.
  destruct (Qle_bool 0 s1) eqn:E1; destruct (Qle_bool 0 s2) eqn:E2;
    qle_facts; nra.
Qed.

Lemma trunc_width_mono (w1 w2 : Q) :
  w1 <= w2 -> (trunc_width w1 <= trunc_width w2)%Z.
Proof.
  intros H. unfold trunc_width.
  destruct (Qle_bool 0 w1) eqn:E1; destruct (Qle_bool 0 w2) eqn:E2; qle_facts.
  - apply Qfloor_resp_le. exact H.
  - lra.
  - transitivity 0%Z.
    + change 0%Z with (Qceiling 0). apply Qceiling_resp_le. lra.
    + change 0%Z with (Qfloor 0). apply Qfloor_resp_le. lra.
  - apply Qceiling_resp_le. exact H.
Qed.

Lemma trunc_width_Z (z : Z) (w : Q) : w == inject_Z z -> trunc_width w = z.
Proof.
  intros H. unfold trunc_width. destruct (Qle_bool 0 w).
  - rewrite (Qfloor_comp _ _ H). apply Qfloor_Z.
  - rewrite (Qceiling_comp _ _ H). apply Qceiling_Z.
Qed.

Section ThrustMapping.

Context {cfg : config}.

Lemma MIL_BR_linear_per_mono (base gen : Z) (s1 s2 : Q) :
  (PWM_FULL_REV_PER base gen <= PWM_STOP_PER base gen)%Z ->
  (PWM_STOP_PER base gen <= PWM_FULL_FWD_PER base gen)%Z ->
  s1 <= s2 ->
  MIL_BR_linear_per s1 base gen <= MIL_BR_linear_per s2 base gen.
Proof.
  intros Hr Hf H. unfold MIL_BR_linear_per. cbv zeta.
  apply interpolation_mono.
  - rewrite <- Zle_Qle. exact Hr.
  - rewrite <- Zle_Qle. exact Hf.
  - apply clamp_speed_mono. exact H.
Qed.

Lemma MIL_BR_linear_per_zero (base gen : Z) :
  MIL_BR_linear_per 0 base gen == inject_Z (PWM_STOP_PER base gen).
Proof.
  unfold MIL_BR_linear_per. cbv zeta.
  change (clamp_speed 0) with 0. change (Qle_bool 0 0) with true.
  cbv iota. ring.
Qed.

(** C7.  With the three pulse widths of the generator in order (full
    reverse, stop, full forward), the width [TKB_PWM_SetSpeed] commands is
    monotonic non-decreasing in the speed over [-1, 1]; speed 0 commands
    exactly the stop width; and the commanded action is determined by the
    speed, the output and the generator alone: speeds that denote the same
    number command the same action. *)
Theorem thrust_mapping_monotone (out gen : Z) (s1 s2 : Q) :
  (PWM_FULL_REV_PER TKB_PWM_BASE gen <= PWM_STOP_PER TKB_PWM_BASE gen)%Z ->
  (PWM_STOP_PER TKB_PWM_BASE gen <= PWM_FULL_FWD_PER TKB_PWM_BASE gen)%Z ->
  -1 <= s1 -> s1 <= s2 -> s2 <= 1 ->
  let width := fun s : Q =>
    trunc_width (MIL_BR_linear_per s TKB_PWM_BASE gen) in
  let thruster := fun s : Q =>
    {| pwm_out := out; pwm_gen := gen; speed_float := s |} in
  TKB_PWM_SetSpeed (thruster s1) = [PWMPulseWidthSet TKB_PWM_BASE out (width s1)]
  /\ TKB_PWM_SetSpeed (thruster s2) = [PWMPulseWidthSet TKB_PWM_BASE out (width s2)]
  /\ (width s1 <= width s2)%Z
  /\ TKB_PWM_SetSpeed (thruster 0)
     = [PWMPulseWidthSet TKB_PWM_BASE out (PWM_STOP_PER TKB_PWM_BASE gen)]
  /\ (s1 == s2 -> TKB_PWM_SetSpeed (thruster s1) = TKB_PWM_SetSpeed (thruster s2)).
Proof.
  intros Hr Hf Hlo H Hhi width thruster.
  assert (Hmono : forall a b : Q, a <= b -> (width a <= width b)%Z).
  { intros a b Hab. apply trunc_width_mono.
    apply MIL_BR_linear_per_mono; assumption. }
  split; [reflexivity|]. split; [reflexivity|].
  split; [apply Hmono; exact H|].
  split.
  - unfold TKB_PWM_SetSpeed. simpl.
    rewrite (trunc_width_Z (PWM_STOP_PER TKB_PWM_BASE gen));
      [reflexivity | apply MIL_BR_linear_per_zero].
  - intros Heq. unfold TKB_PWM_SetSpeed. simpl.
    assert (Hw : width s1 = width s2).
    { apply Z.le_antisymm; apply Hmono; rewrite Heq; apply Qle_refl. }
    unfold width in Hw. rewrite Hw. reflexivity.
Qed.

End ThrustMapping.

Lemma thrust_mapping_monotone_witness :
  ((PWM_FULL_REV_PER (config := sub8) 0x40028000 0x80
    <= PWM_STOP_PER (config := sub8) 0x40028000 0x80)%Z
   /\ (PWM_STOP_PER (config := sub8) 0x40028000 0x80
       <= PWM_FULL_FWD_PER (config := sub8) 0x40028000 0x80)%Z
   /\ -1 <= -(1#2) /\ -(1#2) <= 1#2 /\ 1#2 <= 1)
  /\ (trunc_width (MIL_BR_linear_per (cfg := sub8) (-(1#2)) 0x40028000 0x80)
      <= trunc_width (MIL_BR_linear_per (cfg := sub8) (1#2) 0x40028000 0x80))%Z.
Proof.
  assert (Hr : (PWM_FULL_REV_PER (config := sub8) 0x40028000 0x80
                <= PWM_STOP_PER (config := sub8) 0x40028000 0x80)%Z)
    by (simpl; lia).
  assert (Hf : (PWM_STOP_PER (config := sub8) 0x40028000 0x80
                <= PWM_FULL_FWD_PER (config := sub8) 0x40028000 0x80)%Z)
    by (simpl; lia).
  assert (Hlo : -1 <= -(1#2)) by (unfold Qle; simpl; lia).
  assert (H : -(1#2) <= 1#2) by (unfold Qle; simpl; lia).
  assert (Hhi : 1#2 <= 1) by (unfold Qle; simpl; lia).
  split; [repeat split; assumption|].
  exact (proj1 (proj2 (proj2
    (thrust_mapping_monotone (cfg := sub8) 0x43 0x80 (-(1#2)) (1#2)
       Hr Hf Hlo H Hhi)))).
Defined.

(** * Further properties of the firmware *)

Local Open Scope Z_scope.

(** ** Kill sequences on the board *)

Section KillSequencesOnBoard.

Context {cfg : config}.


(** Killing twice leaves the board as killing once does, for the soft and
    for the hard kill, but every call transmits its status frames again:
    two soft kills hand two frames to the controller, two hard kills
    four. *)
Theorem kill_twice (b : board) :
  run (TKB_SoftKill ++ TKB_SoftKill) b = run TKB_SoftKill b
  /\ run (TKB_HardKill ++ TKB_HardKill) b = run TKB_HardKill b
  /\ length (filter is_can_tx (TKB_SoftKill ++ TKB_SoftKill)) = 2%nat
  /\ length (filter is_can_tx (TKB_HardKill ++ TKB_HardKill)) = 4%nat.
Proof.
  repeat split; reflexivity.
Qed.

(** Both status frames of a hard kill are handed to the CAN controller
    after thruster power is cut and before main power is touched: at either
    transmission thruster power is off and main power is what it was when
    the hard kill began. *)
Theorem hard_kill_transmits_before_main_cut (b : board) :
  map pui8MsgData
    (flat_map (fun a => match a with
                        | CANMessageSet _ _ msg _ => [msg]
                        | _ => []
                        end) TKB_HardKill)
    = [Soft_Killed; Hard_Killed]
  /\ map main_power (boards_at_tx TKB_HardKill b)
     = [main_power b; main_power b]
  /\ map thruster_power (boards_at_tx TKB_HardKill b) = [false; false].
Proof.
  repeat split; reflexivity.
Qed.

(** Every CAN transmission of the soft and of the hard kill has a length
    field equal to the size of the constant it points to, at most eight
    bytes: the controller reads no byte outside the constant. *)
Theorem kill_transmissions_in_bounds :
  forallb tx_in_bounds TKB_SoftKill = true
  /\ forallb tx_in_bounds TKB_HardKill = true.
Proof.
  split; reflexivity.
Qed.


(** An unkill followed by a hard kill ends hard killed with thruster power
    off, but with the PWM output still enabled, whatever the board was: the
    kill does not return the board to its state before the unkill. *)
Theorem unkill_then_hard_kill (b : board) :
  kill_state_of (run (TKB_UnKill ++ TKB_HardKill) b) = HardKilled
  /\ thruster_power (run (TKB_UnKill ++ TKB_HardKill) b) = false
  /\ pwm_output (run (TKB_UnKill ++ TKB_HardKill) b) = true.
Proof.
  repeat split; reflexivity.
Qed.

End KillSequencesOnBoard.

(** ** Constants and inbound messages *)





(** The ten payload constants are pairwise different, so a status frame is
    never mistaken for another status frame or for a command; in particular
    the six status events have six different payloads.  All four kill
    status frames and all four kill commands start with the same byte, and
    their second byte tells a status frame (R) from a command (C). *)
Theorem payloads_distinct (e1 e2 : status_event) :
  NoDup all_payloads
  /\ (status_payload e1 = status_payload e2 <-> e1 = e2)
  /\ map (fun p => nth 0 p 0)
       [Hard_Killed; Soft_Killed; Hard_UnKilled; Soft_UnKilled;
        Hard_Killed_CMD; Soft_Killed_CMD; Hard_UnKilled_CMD; Soft_UnKilled_CMD]
     = repeat 0x4B 8
  /\ map (fun p => nth 1 p 0)
       [Hard_Killed; Soft_Killed; Hard_UnKilled; Soft_UnKilled] = repeat 0x52 4
  /\ map (fun p => nth 1 p 0)
       [Hard_Killed_CMD; Soft_Killed_CMD; Hard_UnKilled_CMD; Soft_UnKilled_CMD]
     = repeat 0x43 4.
Proof.
  split.
  { unfold all_payloads.
    repeat (apply NoDup_cons;
            [ let H := fresh in
              intros H; simpl in H;
              repeat (destruct H as [H|H]; [vm_compute in H; discriminate H|]);
              exact H |]).
    apply NoDup_nil. }
  split.
  { split.
    - destruct e1, e2; intros H; try reflexivity;
        vm_compute in H; discriminate H.
    - intros ->. reflexivity. }
  split; [reflexivity|]. split; reflexivity.
Qed.

Section InboundMessagesMore.

Context {cfg : config}.

(** When the kill and the thrust start byte differ, no message is both a
    kill and a thrust message.  Both checks answer 0 or 1 on a buffer that
    reaches the type-tag offset, and neither has a defined answer on a
    shorter one. *)
Theorem kill_and_thrust_exclusive (pMsg : list Z) :
  KILL_START_BYTE <> THRUST_START_BYTE ->
  ~ (TKB_Check_KillMsg pMsg = Some 1 /\ TKB_Check_ThrustMsg pMsg = Some 1)
  /\ ((MSG_TYPE_IDX < length pMsg)%nat ->
      (TKB_Check_KillMsg pMsg = Some 0 \/ TKB_Check_KillMsg pMsg = Some 1)
      /\ (TKB_Check_ThrustMsg pMsg = Some 0 \/ TKB_Check_ThrustMsg pMsg = Some 1))
  /\ ((length pMsg <= MSG_TYPE_IDX)%nat ->
      TKB_Check_KillMsg pMsg = None /\ TKB_Check_ThrustMsg pMsg = None).
Proof.
  intros Hne. unfold TKB_Check_KillMsg, TKB_Check_ThrustMsg.
  destruct (nth_error pMsg MSG_TYPE_IDX) as [tag|] eqn:Etag.
  - split; [|split].
    + intros [Hk Ht].
      destruct (Z.eqb_spec tag KILL_START_BYTE) as [Ek|_]; [|discriminate Hk].
      destruct (Z.eqb_spec tag THRUST_START_BYTE) as [Et|_]; [|discriminate Ht].
      apply Hne. rewrite <- Ek, <- Et. reflexivity.
    + intros _. split.
      * destruct (tag =? KILL_START_BYTE); [right | left]; reflexivity.
      * destruct (tag =? THRUST_START_BYTE); [right | left]; reflexivity.
    + intros Hshort. apply nth_error_None in Hshort.
      rewrite Hshort in Etag. discriminate Etag.
  - split; [|split].
    + intros [Hk _]. discriminate Hk.
    + intros Hlong. apply nth_error_Some in Hlong. contradiction.
    + intros _. split; reflexivity.
Qed.

End InboundMessagesMore.

Lemma kill_and_thrust_exclusive_witness :
  KILL_START_BYTE (config := sub8) <> THRUST_START_BYTE (config := sub8)
  /\ ~ (TKB_Check_KillMsg (cfg := sub8) Soft_Killed_CMD = Some 1
        /\ TKB_Check_ThrustMsg (cfg := sub8) Soft_Killed_CMD = Some 1).
Proof.
  assert (Hne : KILL_START_BYTE (config := sub8)
                <> THRUST_START_BYTE (config := sub8))
    by (vm_compute; discriminate).
  split; [exact Hne|].
  exact (proj1 (kill_and_thrust_exclusive (cfg := sub8) Soft_Killed_CMD Hne)).
Defined.

(** ** Hall sensors: pull, edge and single pins *)

(** Masking with a single bit tests that bit. *)
Lemma land_pow2_eq0 (a k : Z) :
  0 <= k -> (Z.land a (2 ^ k) =? 0) = negb (Z.testbit a k).
Proof.
  intros Hk. destruct (Z.testbit a k) eqn:Ebit; simpl.
  - apply Z.eqb_neq. intros H0.
    assert (Hb : Z.testbit (Z.land a (2 ^ k)) k = true).
    { rewrite Z.land_spec, Ebit, Z.pow2_bits_true by exact Hk. reflexivity. }
    rewrite H0, Z.bits_0 in Hb. discriminate Hb.
  - apply Z.eqb_eq. apply Z.bits_inj'. intros m Hm.
    rewrite Z.land_spec, Z.bits_0, Z.pow2_bits_eqb by exact Hk.
    destruct (Z.eqb_spec k m) as [<-|_].
    + rewrite Ebit. reflexivity.
    + apply andb_false_r.
Qed.

Section HallSensorsMore.

Context {cfg : config}.

(** With the pull that the initialisation selects, an input nobody drives
    reads as "magnet removed" under the selected polarity, and the edge the
    [switch] selects is the edge the pin makes when the magnet goes from
    present to removed: pull-up and rising edge for [HALL_ACT_LO], pull-down
    and falling edge for [HALL_ACT_HI]. *)
Theorem hall_pull_and_edge_match_polarity (before after : bool) :
  HALL_ACT_LO <> HALL_ACT_HI ->
  (magnet_present ActiveLow
     (idle_level (fst (Init_HALL_IO_switch HALL_ACT_LO))) = false
   /\ (magnet_present ActiveLow before = true ->
       magnet_present ActiveLow after = false ->
       edge_between before after
       = Some (snd (Init_HALL_IO_switch HALL_ACT_LO))))
  /\
  (magnet_present ActiveHigh
     (idle_level (fst (Init_HALL_IO_switch HALL_ACT_HI))) = false
   /\ (magnet_present ActiveHigh before = true ->
       magnet_present ActiveHigh after = false ->
       edge_between before after
       = Some (snd (Init_HALL_IO_switch HALL_ACT_HI)))).
Proof.
  intros Hdist.
  assert (Hlo : Init_HALL_IO_switch HALL_ACT_LO
                = (GPIO_PIN_TYPE_STD_WPU, GPIO_RISING_EDGE)).
  { unfold Init_HALL_IO_switch. rewrite Z.eqb_refl. reflexivity. }
  assert (Hhi : Init_HALL_IO_switch HALL_ACT_HI
                = (GPIO_PIN_TYPE_STD_WPD, GPIO_FALLING_EDGE)).
  { unfold Init_HALL_IO_switch.
    destruct (Z.eqb_spec HALL_ACT_HI HALL_ACT_LO) as [E|_];
      [symmetry in E; contradiction|].
    rewrite Z.eqb_refl. reflexivity. }
  rewrite Hlo, Hhi. simpl.
  split; (split; [reflexivity|]);
    destruct before, after; simpl; intros H1 H2;
    try reflexivity; discriminate.
Qed.

(** When a hall pin constant is the mask of a single pin [k], the check of
    that sensor returns [HALL_HI] if bit [k] of the port B data register is
    set and [HALL_LO] if it is clear; no other bit of port B and no other
    port matters. *)
Theorem hall_check_single_pin (gpio : Z -> Z) (kgo ksoft konoff : Z) :
  0 <= kgo -> 0 <= ksoft -> 0 <= konoff ->
  HALL_GO_PIN = 2 ^ kgo ->
  HALL_SOFTKILL_PIN = 2 ^ ksoft ->
  HALL_ON_OFF_PIN = 2 ^ konoff ->
  HALL_CheckGo gpio
    = (if Z.testbit (gpio GPIO_PORTB_BASE) kgo then HALL_HI else HALL_LO)
  /\ HALL_CheckSoftKill gpio
     = (if Z.testbit (gpio GPIO_PORTB_BASE) ksoft then HALL_HI else HALL_LO)
  /\ HALL_Check_ON_OFF gpio
     = (if Z.testbit (gpio GPIO_PORTB_BASE) konoff then HALL_HI else HALL_LO).
Proof.
  intros Hgo Hsoft Honoff Egop Esoft Eonoff.
  rewrite HALL_CheckGo_eq, HALL_CheckSoftKill_eq, HALL_Check_ON_OFF_eq.
  unfold pin_high. rewrite Egop, Esoft, Eonoff.
  rewrite !land_pow2_eq0 by assumption. rewrite !negb_involutive.
  split; [reflexivity|]. split; reflexivity.
Qed.

End HallSensorsMore.

Lemma hall_pull_and_edge_match_polarity_witness :
  HALL_ACT_LO (config := sub8) <> HALL_ACT_HI (config := sub8)
  /\ edge_between false true
     = Some (snd (Init_HALL_IO_switch (cfg := sub8) 0))
  /\ edge_between true false
     = Some (snd (Init_HALL_IO_switch (cfg := sub8) 1)).
Proof.
  assert (Hd : HALL_ACT_LO (config := sub8) <> HALL_ACT_HI (config := sub8))
    by (vm_compute; discriminate).
  split; [exact Hd|]. split.
  - apply (proj2 (proj1
      (hall_pull_and_edge_match_polarity (cfg := sub8) false true Hd)));
      reflexivity.
  - apply (proj2 (proj2
      (hall_pull_and_edge_match_polarity (cfg := sub8) true false Hd)));
      reflexivity.
Defined.

Lemma hall_check_single_pin_witness :
  (0 <= 1 /\ 0 <= 0 /\ 0 <= 2
   /\ HALL_GO_PIN (config := sub8) = 2 ^ 1
   /\ HALL_SOFTKILL_PIN (config := sub8) = 2 ^ 0
   /\ HALL_ON_OFF_PIN (config := sub8) = 2 ^ 2)
  /\ HALL_CheckGo (cfg := sub8) (fun _ => 0x05) = HALL_LO (config := sub8)
  /\ HALL_Check_ON_OFF (cfg := sub8) (fun _ => 0x05) = HALL_HI (config := sub8).
Proof.
  assert (H1 : 0 <= 1) by lia.
  assert (H0 : 0 <= 0) by lia.
  assert (H2 : 0 <= 2) by lia.
  assert (Ego : HALL_GO_PIN (config := sub8) = 2 ^ 1) by reflexivity.
  assert (Esoft : HALL_SOFTKILL_PIN (config := sub8) = 2 ^ 0) by reflexivity.
  assert (Eonoff : HALL_ON_OFF_PIN (config := sub8) = 2 ^ 2) by reflexivity.
  split; [repeat split; assumption|].
  pose proof (hall_check_single_pin (cfg := sub8) (fun _ => 0x05) 1 0 2
                H1 H0 H2 Ego Esoft Eonoff) as [Hgo [_ Honoff]].
  split; [exact Hgo | exact Honoff].
Defined.

(** ** Peripheral bring-up *)

(** Whatever the port and the base, [MIL_InitCAN] ends with the same four
    calls on the base it was given: initialise the controller, switch
    automatic retry on, set 100 kbit/s from the current clock, enable.  It
    enables no GPIO port clock and makes no interrupt call. *)
Theorem init_can_controller_calls (port : mil_can_port_t) (base clock : Z) :
  skipn (length (MIL_InitCAN port base clock) - 4)
        (MIL_InitCAN port base clock)
    = [CANInit base; CANRetrySet base true;
       CANBitRateSet base clock 100000; CANEnable base]
  /\ filter is_gpio_clock (clocks_enabled (MIL_InitCAN port base clock)) = []
  /\ filter is_interrupt_call (MIL_InitCAN port base clock) = [].
Proof.
  unfold MIL_InitCAN.
  destruct port; destruct (base =? CAN0_BASE); destruct (base =? CAN1_BASE);
    (split; [reflexivity|]; split; reflexivity).
Qed.

(** In every case of [MIL_InitCAN] the pins switched to a CAN signal are
    the pins handed to the CAN pad type, port by port and in the same
    order. *)
Theorem init_can_pins_consistent (port : mil_can_port_t) (base clock : Z) :
  muxed_pins (MIL_InitCAN port base clock)
  = typed_pins (MIL_InitCAN port base clock).
Proof.
  unfold MIL_InitCAN.
  destruct port; destruct (base =? CAN0_BASE); destruct (base =? CAN1_BASE);
    reflexivity.
Qed.

(** The [switch] on the port has no case for port A and the [switch] on the
    base has no default.  With [CAN1_BASE] the pins PA0 and PA1 are set up
    in addition to the pins of the port asked for; with port A and
    [CAN0_BASE] no pin is set up at all. *)
Theorem init_can_port_a (port : mil_can_port_t) (clock : Z) :
  muxed_pins (MIL_InitCAN port CAN1_BASE clock)
  = muxed_pins (MIL_InitCAN port CAN0_BASE clock)
    ++ [(GPIO_PORTA, 0); (GPIO_PORTA, 1)]
  /\ muxed_pins (MIL_InitCAN MIL_CAN_PORT_A CAN0_BASE clock) = []
  /\ muxed_pins (MIL_InitCAN MIL_CAN_PORT_A CAN1_BASE clock)
     = [(GPIO_PORTA, 0); (GPIO_PORTA, 1)].
Proof.
  destruct port; (split; [reflexivity|]; split; reflexivity).
Qed.

(** With a base that is neither [CAN0_BASE] nor [CAN1_BASE], [MIL_InitCAN]
    enables no peripheral clock and still initialises and enables a
    controller at that base; with port A it then makes these four calls and
    nothing else. *)
Theorem init_can_unknown_base (port : mil_can_port_t) (base clock : Z) :
  base <> CAN0_BASE ->
  base <> CAN1_BASE ->
  clocks_enabled (MIL_InitCAN port base clock) = []
  /\ MIL_InitCAN MIL_CAN_PORT_A base clock
     = [CANInit base; CANRetrySet base true;
        CANBitRateSet base clock 100000; CANEnable base].
Proof.
  intros H0 H1. unfold MIL_InitCAN.
  apply Z.eqb_neq in H0, H1. rewrite H0, H1.
  destruct port; split; reflexivity.
Qed.

(** [MIL_CANPortClkEnable] enables the clock of every port whose pins
    [MIL_InitCAN] sets up for the same port argument, except when the base
    is [CAN1_BASE] and the port is not port A: then PA0 and PA1 are set up
    while only the clock of the other port was enabled. *)
Theorem port_clock_covers_init_can (port : mil_can_port_t) (base clock : Z) :
  pins_clocked (clocks_enabled (MIL_CANPortClkEnable port))
               (typed_pins (MIL_InitCAN port base clock))
  = match port with
    | MIL_CAN_PORT_A => true
    | _ => negb (base =? CAN1_BASE)
    end.
Proof.
  unfold MIL_InitCAN.
  destruct (Z.eqb_spec base CAN0_BASE) as [->|_].
  - destruct port; reflexivity.
  - destruct (base =? CAN1_BASE); destruct port; reflexivity.
Qed.

(** The interrupt [MIL_CANIntEnable] enables at the CPU is the one of the
    controller whose clock [MIL_InitCAN] enables for the same base: one
    interrupt for a known base, none for any other base, for which the
    handler is nevertheless registered and the controller's master and
    status interrupts are switched on. *)
Theorem can_interrupt_matches_clock
  (port : mil_can_port_t) (func_ptr base clock : Z) :
  map Some (ints_enabled (MIL_CANIntEnable func_ptr base))
  = map periph_interrupt (clocks_enabled (MIL_InitCAN port base clock))
  /\ firstn 2 (MIL_CANIntEnable func_ptr base)
     = [CANIntRegister base func_ptr;
        CANIntEnable base [CAN_INT_MASTER; CAN_INT_STATUS]]
  /\ (length (ints_enabled (MIL_CANIntEnable func_ptr base)) <= 1)%nat.
Proof.
  unfold MIL_InitCAN, MIL_CANIntEnable.
  destruct (base =? CAN0_BASE); [|destruct (base =? CAN1_BASE)];
    destruct port; (split; [reflexivity|]; split; [reflexivity|]; simpl; lia).
Qed.

Section PwmBringup.

Context {cfg : config}.

(** [TKB_PWM0_Init] enables the PWM clock before anything else and enables
    a generator only after that generator has been configured and given its
    period; it acts on four generators, the four of the thruster pairs. *)
Theorem pwm_init_generators_ready (esc_period : Z) :
  hd_error (TKB_PWM0_Init esc_period)
    = Some (SysCtlPeripheralEnable SYSCTL_PERIPH_PWM0)
  /\ gens_ready_when_enabled [] [] (TKB_PWM0_Init esc_period) = true
  /\ filter (fun c => match c with PWMGenEnable _ _ => true | _ => false end)
       (TKB_PWM0_Init esc_period)
     = map (PWMGenEnable TKB_PWM_BASE)
         [TKB_FH_PWM_GEN; TKB_FV_PWM_GEN; TKB_BH_PWM_GEN; TKB_BV_PWM_GEN].
Proof.
  split; [reflexivity|]. split; [|reflexivity].
  unfold TKB_PWM0_Init. simpl. unfold gen_mem. simpl.
  rewrite !Z.eqb_refl. simpl. rewrite ?orb_true_r. reflexivity.
Qed.

(** The eight pins [TKB_PWM0_Init] switches to a PWM signal are eight
    different pins, they are exactly the pins it hands to the PWM pad type,
    and they carry the eight outputs 0 to 7 of PWM module 0, one each. *)
Theorem pwm_init_pins_consistent (esc_period : Z) :
  NoDup (muxed_pins (TKB_PWM0_Init esc_period))
  /\ Permutation (muxed_pins (TKB_PWM0_Init esc_period))
                 (typed_pins (TKB_PWM0_Init esc_period))
  /\ muxed_signals (TKB_PWM0_Init esc_period)
     = map M0PWM [0; 1; 2; 3; 4; 5; 6; 7].
Proof.
  assert (Hnd : NoDup (muxed_pins (TKB_PWM0_Init esc_period))).
  { simpl.
    repeat (apply NoDup_cons;
            [ let H := fresh in
              intros H; simpl in H;
              repeat (destruct H as [H|H]; [discriminate H|]);
              exact H |]).
    apply NoDup_nil. }
  split; [exact Hnd|]. split; [|reflexivity].
  apply NoDup_Permutation; [exact Hnd | |].
  - simpl.
    repeat (apply NoDup_cons;
            [ let H := fresh in
              intros H; simpl in H;
              repeat (destruct H as [H|H]; [discriminate H|]);
              exact H |]).
    apply NoDup_nil.
  - intros p. simpl. tauto.
Qed.

(** [MIL_InitCAN] with port B or port E sets up pins that [TKB_PWM0_Init]
    sets up as PWM outputs (PB4 and PB5, PE4 and PE5); with port F or port A
    it does not, whatever the base. *)
Theorem can_port_clashes_with_pwm
  (port : mil_can_port_t) (base clock esc_period : Z) :
  pins_clash (muxed_pins (MIL_InitCAN port base clock))
             (muxed_pins (TKB_PWM0_Init esc_period))
  = match port with
    | MIL_CAN_PORT_B | MIL_CAN_PORT_E => true
    | MIL_CAN_PORT_A | MIL_CAN_PORT_F => false
    end.
Proof.
  unfold MIL_InitCAN.
  destruct port; destruct (base =? CAN0_BASE); destruct (base =? CAN1_BASE);
    reflexivity.
Qed.

End PwmBringup.

Lemma init_can_unknown_base_witness :
  (0 <> CAN0_BASE /\ 0 <> CAN1_BASE)
  /\ clocks_enabled (MIL_InitCAN MIL_CAN_PORT_B 0 16000000) = [].
Proof.
  assert (H0 : 0 <> CAN0_BASE) by (vm_compute; discriminate).
  assert (H1 : 0 <> CAN1_BASE) by (vm_compute; discriminate).
  split; [split; assumption|].
  exact (proj1 (init_can_unknown_base MIL_CAN_PORT_B 0 16000000 H0 H1)).
Defined.
